(** * Top-down concrete stock model and its spatial allocation

    A shallow embedding of [top-down/concrete-top-down.py] (the stock-flow
    cohort model) and [top-down/concrete_stock_spatial.py] (the spatial
    allocation of a national total), with the properties the specification
    states about them.

    Numeric convention.  The Python code computes with float64 values, and
    the file reads them in two ways.

    In the first every finite number is a real ([R]).  It carries the
    statements that say which formula the code evaluates and in which
    order, which rows and columns a table has, when a call fails, and the
    inequalities that a monotone rounding preserves.  A division by a zero
    sum, which float64 answers with [inf] or [nan], has no counterpart
    there: every statement about a quotient carries the hypothesis that the
    divisor is not zero.  Where the libraries return [nan] on well-formed
    finite input (a non-positive scale given to [norm.cdf], a label missing
    when two series are aligned) the value is an [option R] with [None]
    for [nan].

    In the second, the definitions whose names end in [_f64], a number is
    a binary64 float and every operation rounds as IEEE 754 prescribes.  It
    carries the statements whose truth depends on the rounding: whether
    rounded shares add up to the whole, and the assertion of
    [allocate_hybrid], which tests the float sum of the weights. *)

From Stdlib Require Import Reals Lra Lia ZArith List String Bool.
From Stdlib Require Import Floats.
Import ListNotations.
Local Open Scope string_scope.
Local Open Scope list_scope.
Local Open Scope R_scope.

(** A decimal literal of a float is read as Python reads it: rounded to the
    nearest binary64 value. *)
Set Warnings "-inexact-float".

(** ** Python builtins *)

(** [max(a, b)]: the first argument, unless the second is strictly greater. *)
Definition py_max (a b : R) : R := if Rlt_dec a b then b else a.

(** [sum(xs)]: left to right, starting from [0]. *)
Definition py_sum (xs : list R) : R := fold_left Rplus xs 0.

(** [range(lo, hi)]. *)
Definition py_range (lo hi : Z) : list Z :=
  map (fun i => (lo + Z.of_nat i)%Z) (seq 0 (Z.to_nat (hi - lo))).

(** [x in xs] on integer labels. *)
Definition py_in (x : Z) (xs : list Z) : bool := existsb (Z.eqb x) xs.

(** Position of the first occurrence of a label. *)
Fixpoint index_of (x : Z) (xs : list Z) : option nat :=
  match xs with
  | [] => None
  | y :: ys => if (y =? x)%Z then Some O else option_map S (index_of x ys)
  end.

(** Lookup in an insertion-ordered dictionary with string keys. *)
Fixpoint dict_get {A : Type} (k : string) (d : list (string * A)) : option A :=
  match d with
  | [] => None
  | (k', v) :: d' => if String.eqb k' k then Some v else dict_get k d'
  end.

(** Fallible steps ([KeyError], [IndexError]) of the cohort model are
    threaded through [option]. *)
Definition obind {A B : Type} (m : option A) (k : A -> option B) : option B :=
  match m with
  | Some a => k a
  | None => None
  end.

Notation "'let?' x ':=' m 'in' k" := (obind m (fun x => k))
  (at level 10, x name, m at level 100, k at level 200).

(** A list built by a loop whose body can fail. *)
Fixpoint collect {A B : Type} (f : A -> option B) (xs : list A)
    : option (list B) :=
  match xs with
  | [] => Some []
  | x :: xs' =>
      let? y := f x in
      let? ys := collect f xs' in
      Some (y :: ys)
  end.

(** The sum of a list of reals, for statements. *)
Definition Rsum (xs : list R) : R := fold_right Rplus 0 xs.

(** ** concrete-top-down.py: configuration *)

Inductive building_type : Set :=
  | residential
  | commercial
  | institutional
  | industrial.

Definition building_types : list building_type :=
  [residential; commercial; institutional; industrial].

Record lifetime_params : Set := { mean : R; std : R }.

Definition LIFETIMES (b : building_type) : lifetime_params :=
  match b with
  | residential => {| mean := 70; std := 20 |}
  | commercial => {| mean := 60; std := 15 |}
  | institutional => {| mean := 75; std := 20 |}
  | industrial => {| mean := 50; std := 15 |}
  end.

Definition BUILDING_FRACTION : R := 0.55.

Definition CONCRETE_TO_CEMENT_RATIO : R := 5.5.

(** ** concrete-top-down.py: tables *)

(** A row of the cement production table. *)
Record cement_row : Set := { c_year : Z; production_mt : R }.

(** A row of the construction spending table. *)
Record spending_row : Set :=
  { s_year : Z;
    residential_fraction : R;
    commercial_fraction : R;
    institutional_fraction : R;
    industrial_fraction : R }.

(** A row of the inflow table returned by [calculate_concrete_inflows]. *)
Record inflow_row : Set :=
  { year : Z;
    in_production_mt : R;
    in_fractions : spending_row;
    concrete_available_mt : R;
    concrete_to_buildings_mt : R;
    residential_concrete_mt : R;
    commercial_concrete_mt : R;
    institutional_concrete_mt : R;
    industrial_concrete_mt : R }.

(** The column [f'{btype}_concrete_mt']. *)
Definition inflow_col (b : building_type) (r : inflow_row) : R :=
  match b with
  | residential => residential_concrete_mt r
  | commercial => commercial_concrete_mt r
  | institutional => institutional_concrete_mt r
  | industrial => industrial_concrete_mt r
  end.

(** The survival matrix: an index of built years and one column of
    probabilities per building type. *)
Record survival_df : Type :=
  { sm_index : list Z; sm_col : building_type -> list R }.

(** [df.loc[y, b]]; [None] is a [KeyError]. *)
Definition df_loc (df : survival_df) (y : Z) (b : building_type) : option R :=
  let? i := index_of y (sm_index df) in nth_error (sm_col df b) i.

(** The dictionary returned by [calculate_stock]. *)
Record stocks : Set :=
  { st_residential : R;
    st_commercial : R;
    st_institutional : R;
    st_industrial : R;
    st_total : R }.

Definition stocks_get (b : building_type) (s : stocks) : R :=
  match b with
  | residential => st_residential s
  | commercial => st_commercial s
  | institutional => st_institutional s
  | industrial => st_industrial s
  end.

(** A row of the table returned by [calculate_stock_timeseries]. *)
Record year_stocks : Set :=
  { ys_year : Z;
    ys_residential : R;
    ys_commercial : R;
    ys_institutional : R;
    ys_industrial : R;
    ys_total : R }.

Definition year_stocks_get (b : building_type) (s : year_stocks) : R :=
  match b with
  | residential => ys_residential s
  | commercial => ys_commercial s
  | institutional => ys_institutional s
  | industrial => ys_industrial s
  end.

(** ** concrete-top-down.py: functions *)

Section CohortModel.

(** The standard normal distribution function, which scipy evaluates for
    [norm.cdf] after standardising its argument. *)
Variable Phi : R -> R.

(** [norm.cdf(x, loc=loc, scale=scale)]: [nan] unless the scale is
    positive. *)
Definition norm_cdf (x loc scale : R) : option R :=
  if Rlt_dec 0 scale then Some (Phi ((x - loc) / scale)) else None.

Definition survival_function (age : Z) (lifetime_params : lifetime_params) : R :=
  let mean_life := mean lifetime_params in
  let std_life := std lifetime_params in
  match norm_cdf (IZR age) mean_life std_life with
  | Some cdf => let survival_prob := 1 - cdf in py_max 0 survival_prob
  | None => 0 (* [1 - nan] is [nan], and [max(0, nan)] keeps the [0] *)
  end.

Definition calculate_survival_matrix (current_year start_year : Z)
    (lifetimes : building_type -> lifetime_params) : option survival_df :=
  let years := py_range start_year (current_year + 1) in
  let survival_data (b : building_type) :=
    map (fun year_built =>
           let age := (current_year - year_built)%Z in
           survival_function age (lifetimes b)) years in
  let df := {| sm_index := years; sm_col := survival_data |} in
  (* the progress report reads [df.loc[1970, btype]] for every type *)
  if forallb (fun b => match df_loc df 1970 b with Some _ => true | None => false end)
             building_types
  then Some df
  else None.

(** [inflows.loc[inflows['year'] == y, col].values[0]]. *)
Definition inflow_at (inflows : list inflow_row) (y : Z) (b : building_type)
    : option R :=
  match filter (fun r => (year r =? y)%Z) inflows with
  | r :: _ => Some (inflow_col b r)
  | [] => None
  end.

(** The four-way product of [calculate_concrete_inflows] on a merged row. *)
Definition inflow_of_merged (c : cement_row) (s : spending_row) : inflow_row :=
  let available := production_mt c * CONCRETE_TO_CEMENT_RATIO in
  let to_buildings := available * BUILDING_FRACTION in
  {| year := c_year c;
     in_production_mt := production_mt c;
     in_fractions := s;
     concrete_available_mt := available;
     concrete_to_buildings_mt := to_buildings;
     residential_concrete_mt := to_buildings * residential_fraction s;
     commercial_concrete_mt := to_buildings * commercial_fraction s;
     institutional_concrete_mt := to_buildings * institutional_fraction s;
     industrial_concrete_mt := to_buildings * industrial_fraction s |}.

(** [cement_data.merge(spending_data, on='year')] is an inner join that
    keeps the order of the left table. *)
Definition calculate_concrete_inflows (cement_data : list cement_row)
    (spending_data : list spending_row) : list inflow_row :=
  flat_map (fun c =>
              map (inflow_of_merged c)
                  (filter (fun s => (s_year s =? c_year c)%Z) spending_data))
           cement_data.

(** The inner loop of [calculate_stock] for one building type. *)
Definition stock_of_type (inflows : list inflow_row)
    (survival_matrix : survival_df) (btype : building_type) : option R :=
  fold_left
    (fun acc y =>
       let? stock := acc in
       if py_in y (sm_index survival_matrix) then
         let? inflow := inflow_at inflows y btype in
         let? survival := df_loc survival_matrix y btype in
         Some (stock + inflow * survival)
       else Some stock)
    (map year inflows) (Some 0).

Definition calculate_stock (inflows : list inflow_row)
    (survival_matrix : survival_df) (current_year : Z) : option stocks :=
  let? res := stock_of_type inflows survival_matrix residential in
  let? com := stock_of_type inflows survival_matrix commercial in
  let? ins := stock_of_type inflows survival_matrix institutional in
  let? ind := stock_of_type inflows survival_matrix industrial in
  Some {| st_residential := res;
          st_commercial := com;
          st_institutional := ins;
          st_industrial := ind;
          st_total := py_sum [res; com; ins; ind] |}.

(** The inner loop of [calculate_stock_timeseries] for one year and one
    building type. *)
Definition stock_in_year (inflows : list inflow_row) (y : Z)
    (btype : building_type) : option R :=
  fold_left
    (fun acc built_year =>
       let? stock := acc in
       if (built_year <=? y)%Z then
         let age := (y - built_year)%Z in
         let? inflow := inflow_at inflows built_year btype in
         let survival := survival_function age (LIFETIMES btype) in
         Some (stock + inflow * survival)
       else Some stock)
    (map year inflows) (Some 0).

Definition stocks_of_year (inflows : list inflow_row) (y : Z)
    : option year_stocks :=
  let? res := stock_in_year inflows y residential in
  let? com := stock_in_year inflows y commercial in
  let? ins := stock_in_year inflows y institutional in
  let? ind := stock_in_year inflows y industrial in
  Some {| ys_year := y;
          ys_residential := res;
          ys_commercial := com;
          ys_institutional := ins;
          ys_industrial := ind;
          ys_total := py_sum [res; com; ins; ind] |}.

Definition calculate_stock_timeseries (inflows : list inflow_row)
    (survival_matrix : survival_df) (start_year end_year : Z)
    : option (list year_stocks) :=
  collect (stocks_of_year inflows) (py_range start_year (end_year + 1)).

End CohortModel.

(** ** concrete_stock_spatial.py: series *)

(** A pandas series of finite values over the positional index
    [0 .. n-1]. *)
Definition Series : Set := list R.

(** A value of a series that alignment can leave missing ([nan]). *)
Definition cell : Set := option R.

(** [s.sum()]. *)
Definition series_sum (s : Series) : R := Rsum s.

(** [s / d] for a number [d]. *)
Definition series_div (s : Series) (d : R) : Series := map (fun v => v / d) s.

(** [k * s] for a number [k]. *)
Definition series_scale (k : R) (s : Series) : Series := map (fun v => k * v) s.

(** [s * k] for a number [k]. *)
Definition series_times (s : Series) (k : R) : Series := map (fun v => v * k) s.

(** [pd.Series(0.0, index=s.index)]. *)
Definition zeros_like {A : Type} (s : list A) : list cell :=
  map (fun _ => Some 0) s.

(** [result += other]: pandas adds label by label and keeps the index of
    [result]; a label of [result] that [other] lacks becomes [nan]. *)
Fixpoint series_iadd (result : list cell) (other : Series) : list cell :=
  match result with
  | [] => []
  | c :: result' =>
      match other with
      | v :: other' => option_map (fun x => x + v) c :: series_iadd result' other'
      | [] => None :: series_iadd result' []
      end
  end.

(** [s.sum()] on a series with missing values, which pandas skips. *)
Definition cells_sum (s : list cell) : R :=
  Rsum (map (fun c => match c with Some v => v | None => 0 end) s).

Definition cells_map (f : R -> R) (s : list cell) : list cell :=
  map (option_map f) s.

Definition cells_of (s : Series) : list cell := map Some s.

(** ** concrete_stock_spatial.py: the allocator object *)

Record SpatialAllocator : Set :=
  { national_stock : R;
    spatial_units : list string;
    n_units : nat }.

(** [SpatialAllocator.__init__]. *)
Definition SpatialAllocator_init (national_stock : R)
    (spatial_units : list string) : SpatialAllocator :=
  {| national_stock := national_stock;
     spatial_units := spatial_units;
     n_units := List.length spatial_units |}.

Inductive exn : Set :=
  | AssertionError
  | IndexError.

Inductive outcome (A : Type) : Type :=
  | Returned (a : A)
  | Raised (e : exn).

Arguments Returned {A} a.
Arguments Raised {A} e.

(** A method of the allocator: it receives the object, returns or raises,
    and hands the object back as it left it. *)
Definition method (A : Type) : Type :=
  SpatialAllocator -> outcome A * SpatialAllocator.

Definition ret {A : Type} (a : A) : method A := fun self => (Returned a, self).

Definition raise {A : Type} (e : exn) : method A := fun self => (Raised e, self).

Definition bind {A B : Type} (m : method A) (k : A -> method B) : method B :=
  fun self =>
    match m self with
    | (Returned a, self') => k a self'
    | (Raised e, self') => (Raised e, self')
    end.

Notation "x <- m ;; k" := (bind m (fun x => k))
  (at level 61, m at next level, right associativity).
Notation "m ;; k" := (bind m (fun _ => k))
  (at level 61, right associativity).

(** [self.national_stock]. *)
Definition self_national_stock : method R :=
  fun self => (Returned (national_stock self), self).

(** [assert c]. *)
Definition py_assert {P Q : Prop} (c : {P} + {Q}) : method unit :=
  if c then ret tt else raise AssertionError.

(** [d[list(d.keys())[0]]]. *)
Definition first_value {A : Type} (d : list (string * A)) : method A :=
  match d with
  | (_, v) :: _ => ret v
  | [] => raise IndexError
  end.

(** A [for] loop that updates one local variable. *)
Fixpoint for_each {A S : Type} (xs : list A) (body : S -> A -> method S)
    (s : S) : method S :=
  match xs with
  | [] => ret s
  | x :: xs' => s' <- body s x ;; for_each xs' body s'
  end.

(** ** concrete_stock_spatial.py: allocation methods *)

Definition allocate_by_population (population : Series) : method Series :=
  let allocation_factor := series_div population (series_sum population) in
  national_stock <- self_national_stock ;;
  ret (series_scale national_stock allocation_factor).

Definition allocate_by_gdp (gdp : Series) : method Series :=
  let allocation_factor := series_div gdp (series_sum gdp) in
  national_stock <- self_national_stock ;;
  ret (series_scale national_stock allocation_factor).

Definition allocate_by_floor_area (floor_area : Series) : method Series :=
  let allocation_factor := series_div floor_area (series_sum floor_area) in
  national_stock <- self_national_stock ;;
  ret (series_scale national_stock allocation_factor).

(** [spending_ts] is given by its columns, one per spatial unit. *)
Definition allocate_by_construction_spending
    (spending_ts : list (string * Series)) : method Series :=
  let cumulative_spending := map (fun c => series_sum (snd c)) spending_ts in
  let allocation_factor :=
    series_div cumulative_spending (series_sum cumulative_spending) in
  national_stock <- self_national_stock ;;
  ret (series_scale national_stock allocation_factor).

(** The body of the loop of [allocate_hybrid] over [weights.items()]. *)
Definition hybrid_step (proxy_data : list (string * Series))
    (result : list cell) (item : string * R) : method (list cell) :=
  let proxy_name := fst item in
  let weight := snd item in
  match dict_get proxy_name proxy_data with
  | Some proxy =>
      let allocation_factor := series_div proxy (series_sum proxy) in
      national_stock <- self_national_stock ;;
      ret (series_iadd result
             (series_scale (weight * national_stock) allocation_factor))
  | None => ret result
  end.

Definition allocate_hybrid (weights : list (string * R))
    (proxy_data : list (string * Series)) : method (list cell) :=
  py_assert (Rlt_dec (Rabs (py_sum (map snd weights) - 1.0)) 0.001) ;;
  first <- first_value proxy_data ;;
  let result := zeros_like first in
  for_each weights (hybrid_step proxy_data) result.

(** [building_type_fractions] is given by its index and its columns. *)
(** The body of the loop of [allocate_with_building_types] over
    [type_intensities.items()]. *)
Definition intensity_step (building_type_fractions : list (string * Series))
    (intensity_scores : list cell) (item : string * R) : method (list cell) :=
  let type_name := fst item in
  let intensity := snd item in
  match dict_get type_name building_type_fractions with
  | Some column =>
      ret (series_iadd intensity_scores (series_times column intensity))
  | None => ret intensity_scores
  end.

Definition allocate_with_building_types
    (index : list string) (building_type_fractions : list (string * Series))
    (type_intensities : list (string * R)) : method (list cell) :=
  let intensity_scores := zeros_like index in
  intensity_scores <-
    for_each type_intensities (intensity_step building_type_fractions)
      intensity_scores ;;
  let total := cells_sum intensity_scores in
  let allocation_factor := cells_map (fun v => v / total) intensity_scores in
  national_stock <- self_national_stock ;;
  ret (cells_map (fun v => national_stock * v) allocation_factor).

(** ** concrete_stock_spatial.py: allocation of the national stocks *)

(** A row of the proxy table. *)
Record proxy_row : Set :=
  { state : string;
    state_abbrev : string;
    population : R;
    gdp : R;
    floor_area : R;
    urbanization : R;
    avg_construction_year : Z }.

(** A row of the table returned by [calculate_regional_characteristics]. *)
Record region_row : Set :=
  { proxy : proxy_row;
    density_score : R;
    gdp_per_capita : R;
    avg_building_age : Z;
    floor_area_per_capita : R }.

Definition calculate_regional_characteristics (proxy_data : list proxy_row)
    : list region_row :=
  map (fun r =>
         let current_year := 2024%Z in
         {| proxy := r;
            density_score := urbanization r * population r;
            gdp_per_capita := gdp r / population r;
            avg_building_age := (current_year - avg_construction_year r)%Z;
            floor_area_per_capita := floor_area r / population r |})
      proxy_data.

(** The table returned by [allocate_national_stock]; [res_stock] holds the
    columns [f'{building_type}_stock'] in the order they were added. *)
Record spatial_results : Set :=
  { res_state : list string;
    res_state_abbrev : list string;
    res_stock : list (string * list cell);
    total_stock : Series;
    res_population : Series;
    res_gdp : Series;
    res_floor_area : Series;
    stock_per_capita : Series }.

(** [d[k] = v] on an insertion-ordered dictionary. *)
Fixpoint dict_set {A : Type} (k : string) (v : A) (d : list (string * A))
    : list (string * A) :=
  match d with
  | [] => [(k, v)]
  | (k', v') :: d' =>
      if String.eqb k' k then (k, v) :: d' else (k', v') :: dict_set k v d'
  end.

(** A method call on an object that is dropped afterwards. *)
Definition call {A : Type} (self : SpatialAllocator) (m : method A) : outcome A :=
  fst (m self).

Definition outcome_map {A B : Type} (f : A -> B) (o : outcome A) : outcome B :=
  match o with
  | Returned a => Returned (f a)
  | Raised e => Raised e
  end.

(** One round of the loop over [national_stocks.items()]. *)
Definition allocate_building_type (method_name : string)
    (region : list region_row) (columns : list (string * list cell))
    (item : string * R) : outcome (list (string * list cell)) :=
  let building_type := fst item in
  let national_stock := snd item in
  let col (f : proxy_row -> R) : Series := map (fun r => f (proxy r)) region in
  let store (o : outcome (list cell)) :=
    outcome_map
      (fun s => dict_set (String.append building_type "_stock") s columns) o in
  if String.eqb building_type "total" then Returned columns
  else
    let allocator :=
      SpatialAllocator_init national_stock (map (fun r => state (proxy r)) region) in
    if String.eqb method_name "population" then
      store (outcome_map cells_of
               (call allocator (allocate_by_population (col population))))
    else if String.eqb method_name "gdp" then
      store (outcome_map cells_of (call allocator (allocate_by_gdp (col gdp))))
    else if String.eqb method_name "floor_area" then
      store (outcome_map cells_of
               (call allocator (allocate_by_floor_area (col floor_area))))
    else if String.eqb method_name "hybrid" then
      if String.eqb building_type "residential" then
        store (call allocator
                 (allocate_hybrid
                    [("population", 0.6); ("floor_area", 0.4)]
                    [("population", col population);
                     ("floor_area", col floor_area)]))
      else if String.eqb building_type "commercial" then
        let urban_score :=
          map (fun r => urbanization (proxy r) * population (proxy r)) region in
        store (call allocator
                 (allocate_hybrid
                    [("gdp", 0.7); ("urban", 0.3)]
                    [("gdp", col gdp); ("urban", urban_score)]))
      else if String.eqb building_type "institutional" then
        store (outcome_map cells_of
                 (call allocator (allocate_by_population (col population))))
      else if String.eqb building_type "industrial" then
        store (outcome_map cells_of (call allocator (allocate_by_gdp (col gdp))))
      else Returned columns
    else Returned columns.

(** A loop whose body can raise. *)
Fixpoint loop {A S : Type} (body : S -> A -> outcome S) (xs : list A) (s : S)
    : outcome S :=
  match xs with
  | [] => Returned s
  | x :: xs' =>
      match body s x with
      | Returned s' => loop body xs' s'
      | Raised e => Raised e
      end
  end.

Definition allocate_national_stock (national_stocks : list (string * R))
    (proxy_data : list proxy_row) (method_name : string)
    : outcome spatial_results :=
  let region := calculate_regional_characteristics proxy_data in
  let col (f : proxy_row -> R) : Series := map (fun r => f (proxy r)) region in
  outcome_map
    (fun columns =>
       let total :=
         map (fun i => cells_sum (map (fun c => nth i (snd c) None) columns))
             (seq 0 (List.length proxy_data)) in
       {| res_state := map state proxy_data;
          res_state_abbrev := map state_abbrev proxy_data;
          res_stock := columns;
          total_stock := total;
          res_population := col population;
          res_gdp := col gdp;
          res_floor_area := col floor_area;
          stock_per_capita :=
            map (fun tp => fst tp / snd tp) (combine total (col population)) |})
    (loop (allocate_building_type method_name region) national_stocks []).

(** ** Vocabulary of the statements *)

(** The inflow of type [b] recorded for year [t]: the table's first row of
    that year, and nothing for a year the table does not have. *)
Definition inflow_in_year (inflows : list inflow_row) (t : Z)
    (b : building_type) : R :=
  match inflow_at inflows t b with
  | Some v => v
  | None => 0
  end.

(** The accumulation the model is meant to compute for year [y] and type
    [b]: every built year [t <= y] of the table contributes its inflow
    times the probability of surviving [y - t] years. *)
Definition cohort_sum (Phi : R -> R) (inflows : list inflow_row)
    (b : building_type) (y : Z) : R :=
  Rsum (map (fun t =>
               inflow_in_year inflows t b
               * survival_function Phi (y - t) (LIFETIMES b))
            (filter (fun t => (t <=? y)%Z) (map year inflows))).

(** The same accumulation read row by row. *)
Definition cohort_sum_rows (Phi : R -> R) (inflows : list inflow_row)
    (b : building_type) (y : Z) : R :=
  Rsum (map (fun r =>
               inflow_col b r
               * survival_function Phi (y - year r) (LIFETIMES b))
            (filter (fun r => (year r <=? y)%Z) inflows)).

(** The distribution function of the normal law with mean [m] and
    standard deviation [s], in terms of the standard one. *)
Definition NormalCDF (Phi : R -> R) (x m s : R) : R := Phi ((x - m) / s).

(** A distribution function to instantiate the statements with: the one of
    the uniform law on [[-2, 2]]. *)
Definition Phi_uniform (z : R) : R := Rmax 0 (Rmin 1 (z / 4 + 1 / 2)).

(** Sample tables to instantiate the statements with: three years of the
    production and spending data the loaders return. *)
Definition sample_cement : list cement_row :=
  [ {| c_year := 1969; production_mt := 73 |};
    {| c_year := 1970; production_mt := 75 |};
    {| c_year := 1971; production_mt := 75.5 |} ].

Definition sample_spending : list spending_row :=
  map (fun y => {| s_year := y;
                   residential_fraction := 0.60;
                   commercial_fraction := 0.25;
                   institutional_fraction := 0.10;
                   industrial_fraction := 0.05 |})
      [1969; 1970; 1971]%Z.

Definition sample_inflows : list inflow_row :=
  calculate_concrete_inflows sample_cement sample_spending.

Definition sample_survival_matrix : survival_df :=
  {| sm_index := [1969; 1970; 1971]%Z;
     sm_col := fun b =>
       map (fun year_built =>
              survival_function Phi_uniform (1971 - year_built) (LIFETIMES b))
           [1969; 1970; 1971]%Z |}.

(** The allocation of [national_stock] in proportion to one proxy: each
    unit receives the national stock times its share of the proxy total. *)
Definition proportional_allocation (national_stock : R) (proxy : Series)
    : Series :=
  map (fun v => national_stock * (v / series_sum proxy)) proxy.

(** What the unit at position [i] receives from the weighted sum of the
    proportional allocations, over the weights whose proxy is supplied. *)
Definition weighted_allocation_at (national_stock : R)
    (weights : list (string * R)) (proxy_data : list (string * Series))
    (i : nat) : R :=
  Rsum (map (fun item =>
               match dict_get (fst item) proxy_data with
               | Some proxy =>
                   snd item * nth i (proportional_allocation national_stock proxy) 0
               | None => 0
               end)
            weights).

Definition weighted_allocation (national_stock : R)
    (weights : list (string * R)) (proxy_data : list (string * Series))
    (n : nat) : Series :=
  map (weighted_allocation_at national_stock weights proxy_data) (seq 0 n).

(** The weights pass the assertion of [allocate_hybrid]. *)
Definition weights_sum_to_one (weights : list (string * R)) : Prop :=
  Rabs (py_sum (map snd weights) - 1.0) < 0.001.

(** Every weighted proxy that is supplied has the index of the first
    series and a total that is not zero. *)
Definition proxies_aligned (weights : list (string * R))
    (proxy_data : list (string * Series)) (n : nat) : Prop :=
  forall item proxy,
    In item weights -> dict_get (fst item) proxy_data = Some proxy ->
    List.length proxy = n /\ series_sum proxy <> 0.

(** A sample allocator and sample proxies: two of the states of the
    proxy table. *)
Definition sample_allocator : SpatialAllocator :=
  SpatialAllocator_init 3000 ["California"; "Texas"].

Definition sample_population : Series := [39.0; 30.0].

Definition sample_floor_area : Series := [8000; 6500].

(** Two rows of the proxy table that [load_spatial_proxy_data] returns. *)
Definition sample_proxy_data : list proxy_row :=
  [ {| state := "California"; state_abbrev := "CA"; population := 39.0;
       gdp := 3900; floor_area := 8000; urbanization := 0.95;
       avg_construction_year := 1975 |};
    {| state := "Texas"; state_abbrev := "TX"; population := 30.0;
       gdp := 2400; floor_area := 6500; urbanization := 0.85;
       avg_construction_year := 1980 |} ].

(** ** concrete-top-down.py: the loaders and the main function *)

Definition CURRENT_YEAR : Z := 2024.

(** [load_usgs_cement_data]: the sample production series, 1950 to 2024. *)
Definition load_usgs_cement_data : list cement_row :=
  let decade (f : R -> R) := map (fun i => f (IZR i)) (py_range 0 10) in
  let production :=
    decade (fun i => 40 + i * 1.5)
    ++ decade (fun i => 55 + i * 2)
    ++ decade (fun i => 75 + i * 0.5)
    ++ decade (fun i => 80 + i * 1)
    ++ decade (fun i => 90 + i * 0.8)
    ++ [98; 99.3; 97; 95; 94; 92; 90; 85; 75; 65]
    ++ [66; 67; 71; 76; 81; 84; 86; 87; 88; 87]
    ++ [83; 90; 91; 93; 90] in
  map (fun yp => {| c_year := fst yp; production_mt := snd yp |})
      (combine (py_range 1950 2025) production).

(** [load_construction_spending]: the sample allocation factors. *)
Definition load_construction_spending : list spending_row :=
  map (fun y => {| s_year := y;
                   residential_fraction := 0.60;
                   commercial_fraction := 0.25;
                   institutional_fraction := 0.10;
                   industrial_fraction := 0.05 |})
      (py_range 1950 2025).

(** [s.min()] on a column of years; an empty column has no minimum. *)
Definition series_min (xs : list Z) : option Z :=
  match xs with
  | [] => None
  | x :: xs' => Some (fold_left Z.min xs' x)
  end.

(** A call of [calculate_concrete_inflows] with its report: the peak year
    is found with [idxmax], which raises a [ValueError] on an empty
    table. *)
Definition calculate_concrete_inflows_reported (cement_data : list cement_row)
    (spending_data : list spending_row) : option (list inflow_row) :=
  let df := calculate_concrete_inflows cement_data spending_data in
  match df with
  | [] => None
  | _ :: _ => Some df
  end.

(** The steps of [main] from the two tables up to the call of
    [plot_results]: the survival matrix, the inflows with their report, the
    current stock and the time series ([print_stock_summary], which comes
    in between, only formats the stock).  [None] is an exception raised in
    one of these steps, which ends [main]; [Some] is the state in which
    [main] goes on to plot and to write its files, neither of which is
    modelled. *)
Definition main_until_plot (Phi : R -> R) (cement_data : list cement_row)
    (spending_data : list spending_row)
    : option (stocks * list year_stocks * list inflow_row) :=
  let? start_year := series_min (map c_year cement_data) in
  let? survival_matrix :=
    calculate_survival_matrix Phi CURRENT_YEAR start_year LIFETIMES in
  let? inflows :=
    calculate_concrete_inflows_reported cement_data spending_data in
  let? stocks := calculate_stock inflows survival_matrix CURRENT_YEAR in
  let? stock_timeseries :=
    calculate_stock_timeseries Phi inflows survival_matrix start_year
      CURRENT_YEAR in
  Some (stocks, stock_timeseries, inflows).

(** ** Vocabulary of the further statements *)

(** What [calculate_stock] accumulates for type [b] from a matrix built for
    the years [start_year .. current_year]: the built years of the table
    inside that range, each with its inflow times the probability of
    surviving until [current_year]. *)
Definition matrix_sum (Phi : R -> R)
    (lifetimes : building_type -> lifetime_params)
    (inflows : list inflow_row) (start_year current_year : Z)
    (b : building_type) : R :=
  Rsum (map (fun t =>
               inflow_in_year inflows t b
               * survival_function Phi (current_year - t) (lifetimes b))
            (filter (fun t => ((start_year <=? t) && (t <=? current_year))%Z%bool)
                    (map year inflows))).

(** The inflow of type [b] of all rows built up to year [y]. *)
Definition cumulative_inflow (inflows : list inflow_row) (b : building_type)
    (y : Z) : R :=
  Rsum (map (inflow_col b) (filter (fun r => (year r <=? y)%Z) inflows)).

(** Lifetimes without spread, and the matrix they give for the sample
    years. *)
Definition fixed_lifetimes (b : building_type) : lifetime_params :=
  {| mean := 60; std := 0 |}.

Definition fixed_survival_matrix : survival_df :=
  {| sm_index := [1969; 1970; 1971]%Z;
     sm_col := fun b =>
       map (fun year_built =>
              survival_function Phi_uniform (1971 - year_built)
                (fixed_lifetimes b))
           [1969; 1970; 1971]%Z |}.

(** Whether [allocate_national_stock] makes a stock column for an entry of
    [national_stocks] named [building_type] under a method: never for
    ['total'], for every other name under the three single-proxy methods,
    for the four building types under ['hybrid'], and for none under any
    other method. *)
Definition handled (method_name building_type : string) : bool :=
  negb (String.eqb building_type "total")
  && (String.eqb method_name "population"
      || String.eqb method_name "gdp"
      || String.eqb method_name "floor_area"
      || (String.eqb method_name "hybrid"
          && (String.eqb building_type "residential"
              || String.eqb building_type "commercial"
              || String.eqb building_type "institutional"
              || String.eqb building_type "industrial"))).

(** The stock column that a round of the loop computes for an entry. *)
Definition stock_column (method_name : string) (region : list region_row)
    (item : string * R) : list cell :=
  match allocate_building_type method_name region [] item with
  | Returned ((_, column) :: _) => column
  | _ => []
  end.

(** The name of the stock column of a building type. *)
Definition stock_column_name (building_type : string) : string :=
  String.append building_type "_stock".

(** ** float64: numbers as the code computes them *)

(** The second model of the arithmetic: a number is a binary64 float and
    every operation rounds as IEEE 754 prescribes, so that overflow gives
    [infinity] and an undefined result or a missing value is [nan]. *)

(** Adding floats from left to right, starting from [0]: what [sum] of
    Python computes before version 3.12, and what [Series.sum] computes
    through numpy on fewer than eight values. *)
Definition sum_left_to_right (xs : list float) : float :=
  fold_left PrimFloat.add xs 0%float.

(** The orders in which the members of a list can be taken. *)
Fixpoint insert_everywhere {A : Type} (x : A) (l : list A) : list (list A) :=
  match l with
  | [] => [[x]]
  | y :: l' => (x :: l) :: map (cons y) (insert_everywhere x l')
  end.

Fixpoint all_orders {A : Type} (l : list A) : list (list A) :=
  match l with
  | [] => [[]]
  | x :: l' => flat_map (insert_everywhere x) (all_orders l')
  end.

(** *** concrete-top-down.py in float64 *)

Definition BUILDING_FRACTION_f64 : float := 0.55%float.

Definition CONCRETE_TO_CEMENT_RATIO_f64 : float := 5.5%float.

Record cement_row_f64 : Set :=
  { c_year_f64 : Z; production_mt_f64 : float }.

Record spending_row_f64 : Set :=
  { s_year_f64 : Z;
    residential_fraction_f64 : float;
    commercial_fraction_f64 : float;
    institutional_fraction_f64 : float;
    industrial_fraction_f64 : float }.

Definition fraction_col_f64 (b : building_type) (s : spending_row_f64)
    : float :=
  match b with
  | residential => residential_fraction_f64 s
  | commercial => commercial_fraction_f64 s
  | institutional => institutional_fraction_f64 s
  | industrial => industrial_fraction_f64 s
  end.

Record inflow_row_f64 : Set :=
  { year_f64 : Z;
    in_production_mt_f64 : float;
    in_fractions_f64 : spending_row_f64;
    concrete_available_mt_f64 : float;
    concrete_to_buildings_mt_f64 : float;
    residential_concrete_mt_f64 : float;
    commercial_concrete_mt_f64 : float;
    institutional_concrete_mt_f64 : float;
    industrial_concrete_mt_f64 : float }.

Definition inflow_col_f64 (b : building_type) (r : inflow_row_f64) : float :=
  match b with
  | residential => residential_concrete_mt_f64 r
  | commercial => commercial_concrete_mt_f64 r
  | institutional => institutional_concrete_mt_f64 r
  | industrial => industrial_concrete_mt_f64 r
  end.

(** The columns that [calculate_concrete_inflows] adds to a merged row,
    each a rounded product. *)
Definition inflow_of_merged_f64 (c : cement_row_f64) (s : spending_row_f64)
    : inflow_row_f64 :=
  let available :=
    (production_mt_f64 c * CONCRETE_TO_CEMENT_RATIO_f64)%float in
  let to_buildings := (available * BUILDING_FRACTION_f64)%float in
  {| year_f64 := c_year_f64 c;
     in_production_mt_f64 := production_mt_f64 c;
     in_fractions_f64 := s;
     concrete_available_mt_f64 := available;
     concrete_to_buildings_mt_f64 := to_buildings;
     residential_concrete_mt_f64 :=
       (to_buildings * residential_fraction_f64 s)%float;
     commercial_concrete_mt_f64 :=
       (to_buildings * commercial_fraction_f64 s)%float;
     institutional_concrete_mt_f64 :=
       (to_buildings * institutional_fraction_f64 s)%float;
     industrial_concrete_mt_f64 :=
       (to_buildings * industrial_fraction_f64 s)%float |}.

(** [cement_data.merge(spending_data, on='year')] and the new columns. *)
Definition calculate_concrete_inflows_f64 (cement_data : list cement_row_f64)
    (spending_data : list spending_row_f64) : list inflow_row_f64 :=
  flat_map (fun c =>
              map (inflow_of_merged_f64 c)
                  (filter (fun s => (s_year_f64 s =? c_year_f64 c)%Z)
                          spending_data))
           cement_data.

(** [load_usgs_cement_data]: the sample production series, 1950 to 2024,
    with the arithmetic of its list comprehensions. *)
Definition load_usgs_cement_data_f64 : list cement_row_f64 :=
  let decade (f : float -> float) :=
    map f [0; 1; 2; 3; 4; 5; 6; 7; 8; 9]%float in
  let production :=
    (decade (fun i => 40 + i * 1.5)
     ++ decade (fun i => 55 + i * 2)
     ++ decade (fun i => 75 + i * 0.5)
     ++ decade (fun i => 80 + i * 1)
     ++ decade (fun i => 90 + i * 0.8)
     ++ [98; 99.3; 97; 95; 94; 92; 90; 85; 75; 65]
     ++ [66; 67; 71; 76; 81; 84; 86; 87; 88; 87]
     ++ [83; 90; 91; 93; 90])%float in
  map (fun yp => {| c_year_f64 := fst yp; production_mt_f64 := snd yp |})
      (combine (py_range 1950 2025) production).

(** [load_construction_spending]: the sample allocation factors. *)
Definition load_construction_spending_f64 : list spending_row_f64 :=
  map (fun y => {| s_year_f64 := y;
                   residential_fraction_f64 := 0.60;
                   commercial_fraction_f64 := 0.25;
                   institutional_fraction_f64 := 0.10;
                   industrial_fraction_f64 := 0.05 |})
      (py_range 1950 2025).

(** The inflow table of the sample data. *)
Definition sample_inflows_f64 : list inflow_row_f64 :=
  calculate_concrete_inflows_f64 load_usgs_cement_data_f64
    load_construction_spending_f64.

(** What the inflow table holds for a production row [c] and a spending
    row [s] of the same year: the rounded products of the production, the
    two constants and the spending fraction, taken in this order. *)
Definition splits_production_f64 (c : cement_row_f64) (s : spending_row_f64)
    (row : inflow_row_f64) : Prop :=
  year_f64 row = c_year_f64 c
  /\ concrete_to_buildings_mt_f64 row
     = (production_mt_f64 c * CONCRETE_TO_CEMENT_RATIO_f64
        * BUILDING_FRACTION_f64)%float
  /\ (forall b,
        inflow_col_f64 b row
        = (production_mt_f64 c * CONCRETE_TO_CEMENT_RATIO_f64
           * BUILDING_FRACTION_f64 * fraction_col_f64 b s)%float).

(** The four fractions of a row add up to one, and its four inflows to its
    concrete-to-buildings total, when they are added in the order
    [order]. *)
Definition fractions_sum_to_one (order : list building_type)
    (row : inflow_row_f64) : bool :=
  (sum_left_to_right
     (map (fun b => fraction_col_f64 b (in_fractions_f64 row)) order)
   =? 1)%float.

Definition inflows_sum_to_total (order : list building_type)
    (row : inflow_row_f64) : bool :=
  (sum_left_to_right (map (fun b => inflow_col_f64 b row) order)
   =? concrete_to_buildings_mt_f64 row)%float.

(** *** concrete_stock_spatial.py in float64 *)

(** A pandas series of float64 values over the positional index
    [0 .. n-1]; a missing value is [nan]. *)
Definition Series_f64 : Set := list float.

(** [s / d] for a number [d]. *)
Definition series_div_f64 (s : Series_f64) (d : float) : Series_f64 :=
  map (fun v => (v / d)%float) s.

(** [k * s] for a number [k]. *)
Definition series_scale_f64 (k : float) (s : Series_f64) : Series_f64 :=
  map (fun v => (k * v)%float) s.

(** [pd.Series(0.0, index=s.index)]. *)
Definition zeros_like_f64 {A : Type} (s : list A) : Series_f64 :=
  map (fun _ => 0%float) s.

(** [result += other]: pandas adds label by label and keeps the index of
    [result]; a label of [result] that [other] lacks becomes [nan]. *)
Fixpoint series_iadd_f64 (result other : Series_f64) : Series_f64 :=
  match result with
  | [] => []
  | x :: result' =>
      match other with
      | v :: other' => (x + v)%float :: series_iadd_f64 result' other'
      | [] => nan :: series_iadd_f64 result' []
      end
  end.

Record SpatialAllocator_f64 : Set :=
  { national_stock_f64 : float;
    spatial_units_f64 : list string;
    n_units_f64 : nat }.

(** [SpatialAllocator.__init__]. *)
Definition SpatialAllocator_f64_init (national_stock : float)
    (spatial_units : list string) : SpatialAllocator_f64 :=
  {| national_stock_f64 := national_stock;
     spatial_units_f64 := spatial_units;
     n_units_f64 := List.length spatial_units |}.

Section Float64Allocation.

(** [Series.sum] of pandas and the builtin [sum] of Python are library
    code: the order in which they add, and so the rounding of the total,
    depends on the length of the series and on the version (numpy adds a
    long array in blocks, Python 3.12 compensates the rounding).  The
    methods take the two functions as they find them. *)
Variable pandas_sum : Series_f64 -> float.
Variable python_sum : list float -> float.

Variable self : SpatialAllocator_f64.

Definition allocate_by_population_f64 (population : Series_f64)
    : Series_f64 :=
  let allocation_factor := series_div_f64 population (pandas_sum population) in
  series_scale_f64 (national_stock_f64 self) allocation_factor.

Definition allocate_by_gdp_f64 (gdp : Series_f64) : Series_f64 :=
  let allocation_factor := series_div_f64 gdp (pandas_sum gdp) in
  series_scale_f64 (national_stock_f64 self) allocation_factor.

Definition allocate_by_floor_area_f64 (floor_area : Series_f64)
    : Series_f64 :=
  let allocation_factor := series_div_f64 floor_area (pandas_sum floor_area) in
  series_scale_f64 (national_stock_f64 self) allocation_factor.

Definition allocate_by_nighttime_lights_f64 (ntl : Series_f64) : Series_f64 :=
  let allocation_factor := series_div_f64 ntl (pandas_sum ntl) in
  series_scale_f64 (national_stock_f64 self) allocation_factor.

(** The body of the loop of [allocate_hybrid] over [weights.items()]. *)
Definition hybrid_step_f64 (proxy_data : list (string * Series_f64))
    (result : Series_f64) (item : string * float) : Series_f64 :=
  let proxy_name := fst item in
  let weight := snd item in
  match dict_get proxy_name proxy_data with
  | Some proxy =>
      let allocation_factor := series_div_f64 proxy (pandas_sum proxy) in
      series_iadd_f64 result
        (series_scale_f64 (weight * national_stock_f64 self) allocation_factor)
  | None => result
  end.

Definition allocate_hybrid_f64 (weights : list (string * float))
    (proxy_data : list (string * Series_f64)) : outcome Series_f64 :=
  if (abs (python_sum (map snd weights) - 1.0) <? 0.001)%float then
    match proxy_data with
    | (_, first) :: _ =>
        let result := zeros_like_f64 first in
        Returned (fold_left (hybrid_step_f64 proxy_data) weights result)
    | [] => Raised IndexError
    end
  else Raised AssertionError.

End Float64Allocation.

(** The weights pass the assertion of [allocate_hybrid]. *)
Definition weights_pass_f64 (python_sum : list float -> float)
    (weights : list (string * float)) : bool :=
  (abs (python_sum (map snd weights) - 1.0) <? 0.001)%float.

(** A weight whose proxy is supplied. *)
Definition present_f64 (proxy_data : list (string * Series_f64))
    (item : string * float) : bool :=
  match dict_get (fst item) proxy_data with
  | Some _ => true
  | None => false
  end.

(** What the loop of [allocate_hybrid] adds to the value [acc] at position
    [i] for one weight: the weight times the national stock times the
    share of the unit in the proxy, nothing when the proxy is not
    supplied, and [nan] when the supplied series lacks the position. *)
Definition weighted_term_f64 (pandas_sum : Series_f64 -> float)
    (national_stock : float) (proxy_data : list (string * Series_f64))
    (i : nat) (acc : float) (item : string * float) : float :=
  match dict_get (fst item) proxy_data with
  | Some proxy =>
      match nth_error proxy i with
      | Some v =>
          (acc + snd item * national_stock * (v / pandas_sum proxy))%float
      | None => nan
      end
  | None => acc
  end.

(** The weighted sum of the proportional allocations at position [i],
    accumulated from [0] in the order of the weights. *)
Definition weighted_allocation_at_f64 (pandas_sum : Series_f64 -> float)
    (national_stock : float) (weights : list (string * float))
    (proxy_data : list (string * Series_f64)) (i : nat) : float :=
  fold_left (weighted_term_f64 pandas_sum national_stock proxy_data i)
    weights 0%float.

Definition weighted_allocation_f64 (pandas_sum : Series_f64 -> float)
    (national_stock : float) (weights : list (string * float))
    (proxy_data : list (string * Series_f64)) (n : nat) : Series_f64 :=
  map (weighted_allocation_at_f64 pandas_sum national_stock weights proxy_data)
      (seq 0 n).

(** The specification's account of a single-proxy method on a proxy whose
    total is not zero: every unit receives the national stock times its
    share, and what the units receive adds up to the national stock. *)
Definition redistributes_exactly (pandas_sum : Series_f64 -> float)
    (self : SpatialAllocator_f64) (proxy allocated : Series_f64) : Prop :=
  (pandas_sum proxy =? 0)%float = false ->
  allocated
  = map (fun v => (national_stock_f64 self * (v / pandas_sum proxy))%float)
        proxy
  /\ (pandas_sum allocated =? national_stock_f64 self)%float = true.

(** The specification's account of [allocate_hybrid]: an assertion error
    exactly when the weights do not pass, and otherwise a normal return
    with the weighted sum of the proportional allocations. *)
Definition hybrid_fails_only_on_weights (pandas_sum : Series_f64 -> float)
    (python_sum : list float -> float) (self : SpatialAllocator_f64)
    (weights : list (string * float))
    (proxy_data : list (string * Series_f64)) : Prop :=
  (allocate_hybrid_f64 pandas_sum python_sum self weights proxy_data
   = Raised AssertionError
   <-> weights_pass_f64 python_sum weights = false)
  /\ (weights_pass_f64 python_sum weights = true ->
      exists n,
        allocate_hybrid_f64 pandas_sum python_sum self weights proxy_data
        = Returned (weighted_allocation_f64 pandas_sum
                      (national_stock_f64 self) weights proxy_data n)).

(** The specification's account of a weighted proxy that is not supplied:
    no error, and an allocation that adds up to the national stock times
    the weights that are present, which is less than the national stock. *)
Definition hybrid_loses_stock (pandas_sum : Series_f64 -> float)
    (python_sum : list float -> float) (self : SpatialAllocator_f64)
    (weights : list (string * float))
    (proxy_data : list (string * Series_f64)) : Prop :=
  (python_sum (map snd weights) =? 1.0)%float = true ->
  (exists item, In item weights /\ present_f64 proxy_data item = false) ->
  exists allocated,
    allocate_hybrid_f64 pandas_sum python_sum self weights proxy_data
    = Returned allocated
    /\ (pandas_sum allocated
        =? national_stock_f64 self
           * python_sum (map snd (filter (present_f64 proxy_data) weights)))%float
       = true
    /\ (pandas_sum allocated <? national_stock_f64 self)%float = true.

(** Sample allocators and proxies: two of the states of the proxy table. *)
Definition sample_allocator_f64 : SpatialAllocator_f64 :=
  SpatialAllocator_f64_init 3000 ["California"; "Texas"].

Definition sample_population_f64 : Series_f64 := [39.0; 30.0]%float.

Definition sample_floor_area_f64 : Series_f64 := [8000; 6500]%float.

(** ** Sums and ranges *)

Lemma fold_left_Rplus (xs : list R) (a : R) :
  fold_left Rplus xs a = a + Rsum xs.
Proof.
  revert a; induction xs as [|x xs IH]; intros a; simpl.
  - lra.
  - rewrite IH. lra.
Qed.

Lemma Rsum_cons (x : R) (xs : list R) : Rsum (x :: xs) = x + Rsum xs.
Proof. reflexivity. Qed.

Lemma py_sum_Rsum (xs : list R) : py_sum xs = Rsum xs.
Proof. unfold py_sum. rewrite fold_left_Rplus. lra. Qed.


Lemma py_range_In (lo hi y : Z) :
  In y (py_range lo hi) <-> (lo <= y < hi)%Z.
Proof.
  unfold py_range. rewrite in_map_iff. split.
  - intros [i [<- Hi]]. apply in_seq in Hi. lia.
  - intros H. exists (Z.to_nat (y - lo)). split; [lia|].
    apply in_seq. lia.
Qed.


Lemma py_range_nth (lo hi y : Z) :
  (lo <= y < hi)%Z ->
  nth_error (py_range lo hi) (Z.to_nat (y - lo)) = Some y.
Proof.
  intros H. unfold py_range.
  rewrite nth_error_map, nth_error_seq.
  destruct (Nat.ltb_spec (Z.to_nat (y - lo)) (Z.to_nat (hi - lo))) as [_|Hge];
    [|lia].
  simpl. f_equal. lia.
Qed.

Lemma index_of_seq (lo : Z) (n s k : nat) :
  (s <= k < s + n)%nat ->
  index_of (lo + Z.of_nat k)
           (map (fun i => (lo + Z.of_nat i)%Z) (seq s n)) = Some (k - s)%nat.
Proof.
  revert s; induction n as [|n IH]; intros s H; [lia|].
  simpl. destruct (Z.eqb_spec (lo + Z.of_nat s) (lo + Z.of_nat k)) as [E|E].
  - f_equal. lia.
  - rewrite IH by lia. simpl. f_equal. lia.
Qed.

Lemma py_range_index_of (lo hi y : Z) :
  (lo <= y < hi)%Z ->
  index_of y (py_range lo hi) = Some (Z.to_nat (y - lo)).
Proof.
  intros H. unfold py_range.
  replace y with (lo + Z.of_nat (Z.to_nat (y - lo)))%Z at 1 by lia.
  rewrite index_of_seq by lia. f_equal. lia.
Qed.

Lemma py_in_range (lo hi y : Z) :
  py_in y (py_range lo hi) = ((lo <=? y) && (y <? hi))%Z%bool.
Proof.
  unfold py_in.
  destruct ((lo <=? y)%Z && (y <? hi)%Z)%bool eqn:E.
  - apply existsb_exists. exists y. split; [|apply Z.eqb_refl].
    apply py_range_In. lia.
  - destruct (existsb (Z.eqb y) (py_range lo hi)) eqn:X; [|reflexivity].
    apply existsb_exists in X. destruct X as [z [Hz Hyz]].
    apply Z.eqb_eq in Hyz. subst z. apply py_range_In in Hz. lia.
Qed.

Lemma collect_total {A B : Type} (f : A -> option B) (g : A -> B)
    (xs : list A) :
  (forall x, In x xs -> f x = Some (g x)) ->
  collect f xs = Some (map g xs).
Proof.
  induction xs as [|x xs IH]; intros H; simpl.
  - reflexivity.
  - rewrite (H x) by now left. simpl.
    rewrite IH by (intros z Hz; apply H; now right). reflexivity.
Qed.

Lemma fold_left_agree {A B : Type} (f g : A -> B -> A) (xs : list B) (a : A) :
  (forall acc x, In x xs -> f acc x = g acc x) ->
  fold_left f xs a = fold_left g xs a.
Proof.
  revert a; induction xs as [|x xs IH]; intros a H; simpl.
  - reflexivity.
  - rewrite (H a x) by now left. apply IH. intros acc z Hz. apply H. now right.
Qed.

(** ** The cohort accumulation *)

Section CohortFacts.

Variable Phi : R -> R.

Lemma inflow_at_present (inflows : list inflow_row) (t : Z)
    (b : building_type) :
  In t (map year inflows) ->
  inflow_at inflows t b = Some (inflow_in_year inflows t b).
Proof.
  intros H. apply in_map_iff in H. destruct H as [r [Hr Hin]].
  unfold inflow_in_year, inflow_at.
  destruct (filter (fun r0 => (year r0 =? t)%Z) inflows) as [|r0 rest] eqn:F.
  - assert (In r (filter (fun r0 => (year r0 =? t)%Z) inflows)) as X.
    { apply filter_In. split; [assumption|]. now apply Z.eqb_eq. }
    rewrite F in X. destruct X.
  - reflexivity.
Qed.

Lemma stock_in_year_loop (inflows : list inflow_row) (y : Z)
    (b : building_type) (ys : list Z) (acc : R) :
  (forall t, In t ys -> In t (map year inflows)) ->
  fold_left
    (fun acc built_year =>
       let? stock := acc in
       if (built_year <=? y)%Z then
         let age := (y - built_year)%Z in
         let? inflow := inflow_at inflows built_year b in
         let survival := survival_function Phi age (LIFETIMES b) in
         Some (stock + inflow * survival)
       else Some stock)
    ys (Some acc)
  = Some (acc + Rsum (map (fun t =>
                             inflow_in_year inflows t b
                             * survival_function Phi (y - t) (LIFETIMES b))
                          (filter (fun t => (t <=? y)%Z) ys))).
Proof.
  revert acc; induction ys as [|t ys IH]; intros acc H; simpl.
  - f_equal. lra.
  - destruct (t <=? y)%Z eqn:E; simpl.
    + rewrite inflow_at_present by (apply H; now left). simpl.
      rewrite IH by (intros z Hz; apply H; now right).
      f_equal. lra.
    + apply IH. intros z Hz. apply H. now right.
Qed.

Lemma stock_in_year_cohort_sum (inflows : list inflow_row) (y : Z)
    (b : building_type) :
  stock_in_year Phi inflows y b = Some (cohort_sum Phi inflows b y).
Proof.
  unfold stock_in_year, cohort_sum.
  rewrite stock_in_year_loop by auto. f_equal. lra.
Qed.

(** The row that [calculate_stock_timeseries] builds for year [y]. *)
Lemma stocks_of_year_cohort_sum (inflows : list inflow_row) (y : Z) :
  stocks_of_year Phi inflows y =
  Some {| ys_year := y;
          ys_residential := cohort_sum Phi inflows residential y;
          ys_commercial := cohort_sum Phi inflows commercial y;
          ys_institutional := cohort_sum Phi inflows institutional y;
          ys_industrial := cohort_sum Phi inflows industrial y;
          ys_total :=
            py_sum [cohort_sum Phi inflows residential y;
                    cohort_sum Phi inflows commercial y;
                    cohort_sum Phi inflows institutional y;
                    cohort_sum Phi inflows industrial y] |}.
Proof.
  unfold stocks_of_year. now rewrite !stock_in_year_cohort_sum.
Qed.

(** With one row per year the inflow of a year is the inflow of its row. *)
Lemma inflow_in_year_unique (inflows : list inflow_row) (r : inflow_row)
    (b : building_type) :
  NoDup (map year inflows) -> In r inflows ->
  inflow_in_year inflows (year r) b = inflow_col b r.
Proof.
  induction inflows as [|r0 rest IH]; intros ND Hin; [destruct Hin|].
  simpl in ND. apply NoDup_cons_iff in ND. destruct ND as [Hnot ND].
  unfold inflow_in_year, inflow_at. simpl.
  destruct Hin as [->|Hin].
  - now rewrite Z.eqb_refl.
  - destruct (Z.eqb_spec (year r0) (year r)) as [E|E].
    + exfalso. apply Hnot. rewrite E. now apply in_map.
    + apply (IH ND Hin).
Qed.

Lemma cohort_sum_unique_years (inflows : list inflow_row)
    (b : building_type) (y : Z) :
  NoDup (map year inflows) ->
  cohort_sum Phi inflows b y = cohort_sum_rows Phi inflows b y.
Proof.
  intros ND. unfold cohort_sum, cohort_sum_rows.
  assert (forall rows, (forall r, In r rows -> In r inflows) ->
            Rsum (map (fun t => inflow_in_year inflows t b
                                * survival_function Phi (y - t) (LIFETIMES b))
                      (filter (fun t => (t <=? y)%Z) (map year rows)))
            = Rsum (map (fun r => inflow_col b r
                                  * survival_function Phi (y - year r)
                                      (LIFETIMES b))
                        (filter (fun r => (year r <=? y)%Z) rows))) as G.
  { induction rows as [|r rows IH]; intros Hsub; simpl; [reflexivity|].
    destruct (year r <=? y)%Z; simpl.
    - rewrite IH by (intros z Hz; apply Hsub; now right).
      rewrite inflow_in_year_unique by (auto; apply Hsub; now left).
      reflexivity.
    - apply IH. intros z Hz. apply Hsub. now right. }
  apply G. auto.
Qed.

End CohortFacts.

Section MatrixFacts.

Variable Phi : R -> R.

Lemma survival_matrix_shape (current_year start_year : Z)
    (lifetimes : building_type -> lifetime_params) (sm : survival_df) :
  calculate_survival_matrix Phi current_year start_year lifetimes = Some sm ->
  sm = {| sm_index := py_range start_year (current_year + 1);
          sm_col := fun b =>
            map (fun year_built =>
                   survival_function Phi (current_year - year_built)
                     (lifetimes b))
                (py_range start_year (current_year + 1)) |}.
Proof.
  unfold calculate_survival_matrix.
  destruct (forallb _ building_types); intros H; [|discriminate].
  now injection H as <-.
Qed.

Lemma df_loc_range (lo hi y : Z) (f : building_type -> Z -> R)
    (b : building_type) :
  (lo <= y < hi)%Z ->
  df_loc {| sm_index := py_range lo hi;
            sm_col := fun b => map (f b) (py_range lo hi) |} y b
  = Some (f b y).
Proof.
  intros H. unfold df_loc. cbn [sm_index sm_col].
  rewrite py_range_index_of by lia. cbn [obind].
  rewrite nth_error_map, py_range_nth by lia. reflexivity.
Qed.

Lemma survival_matrix_loc (current_year start_year y : Z)
    (lifetimes : building_type -> lifetime_params) (sm : survival_df)
    (b : building_type) :
  calculate_survival_matrix Phi current_year start_year lifetimes = Some sm ->
  (start_year <= y <= current_year)%Z ->
  df_loc sm y b
  = Some (survival_function Phi (current_year - y) (lifetimes b)).
Proof.
  intros H Hy. rewrite (survival_matrix_shape _ _ _ _ H).
  now rewrite (df_loc_range _ _ y
                 (fun b yb => survival_function Phi (current_year - yb)
                                (lifetimes b))) by lia.
Qed.

(** The progress report of [calculate_survival_matrix] makes it fail
    unless 1970 is one of the built years. *)
Lemma survival_matrix_defined (current_year start_year : Z)
    (lifetimes : building_type -> lifetime_params) :
  (start_year <= 1970 <= current_year)%Z ->
  exists sm,
    calculate_survival_matrix Phi current_year start_year lifetimes = Some sm.
Proof.
  intros H. unfold calculate_survival_matrix.
  assert (forall b,
            df_loc {| sm_index := py_range start_year (current_year + 1);
                      sm_col := fun b =>
                        map (fun year_built =>
                               survival_function Phi
                                 (current_year - year_built) (lifetimes b))
                            (py_range start_year (current_year + 1)) |}
                   1970 b
            = Some (survival_function Phi (current_year - 1970) (lifetimes b)))
    as L.
  { intros b.
    now rewrite (df_loc_range _ _ 1970
                   (fun b yb => survival_function Phi (current_year - yb)
                                  (lifetimes b))) by lia. }
  unfold building_types. cbn [forallb]. rewrite !L. cbn.
  eexists. reflexivity.
Qed.

Lemma survival_matrix_undefined (current_year start_year : Z)
    (lifetimes : building_type -> lifetime_params) :
  ~ (start_year <= 1970 <= current_year)%Z ->
  calculate_survival_matrix Phi current_year start_year lifetimes = None.
Proof.
  intros H. unfold calculate_survival_matrix, df_loc. cbn [sm_index sm_col].
  assert (index_of 1970 (py_range start_year (current_year + 1)) = None) as N.
  { assert (forall xs, ~ In 1970%Z xs -> index_of 1970 xs = None) as G.
    { induction xs as [|x xs IH]; intros Hn; simpl; [reflexivity|].
      destruct (Z.eqb_spec x 1970) as [E|E].
      - exfalso. apply Hn. now left.
      - rewrite IH; [reflexivity|]. intros X. apply Hn. now right. }
    apply G. rewrite py_range_In. lia. }
  unfold building_types. cbn [forallb]. rewrite N. reflexivity.
Qed.

(** Reading the matrix and recomputing the probability agree as soon as no
    row of the inflow table was built before [start_year]. *)
Lemma stock_of_type_cohort_sum (inflows : list inflow_row)
    (start_year current_year : Z) (sm : survival_df) (b : building_type) :
  (forall t, In t (map year inflows) -> (start_year <= t)%Z) ->
  calculate_survival_matrix Phi current_year start_year LIFETIMES = Some sm ->
  stock_of_type inflows sm b = Some (cohort_sum Phi inflows b current_year).
Proof.
  intros Hyears Hsm.
  rewrite <- stock_in_year_cohort_sum.
  unfold stock_of_type, stock_in_year.
  apply fold_left_agree. intros acc t Ht.
  apply Hyears in Ht.
  assert (sm_index sm = py_range start_year (current_year + 1)) as Hidx
    by now rewrite (survival_matrix_shape _ _ _ _ Hsm).
  rewrite Hidx, py_in_range.
  destruct acc as [stock|]; [|reflexivity]. cbn [obind].
  destruct (Z.leb_spec t current_year) as [Hle|Hgt].
  - replace ((start_year <=? t)%Z && (t <? current_year + 1)%Z)%bool
      with true by (symmetry; apply andb_true_iff; lia).
    rewrite (survival_matrix_loc _ _ t _ _ b Hsm) by lia.
    destruct (inflow_at inflows t b); reflexivity.
  - replace ((start_year <=? t)%Z && (t <? current_year + 1)%Z)%bool
      with false by (symmetry; apply andb_false_iff; lia).
    reflexivity.
Qed.

(** A row built before [start_year] is what tells the two apart: the
    matrix has no entry for it, while the time series still counts it. *)
Example stock_skips_years_before_matrix (r : inflow_row) :
  year r = 1968%Z ->
  stock_of_type [r] sample_survival_matrix commercial = Some 0
  /\ stock_in_year Phi [r] 1971 commercial
     = Some (0 + commercial_concrete_mt r
                 * survival_function Phi 3 (LIFETIMES commercial)).
Proof.
  intros H. unfold stock_of_type, stock_in_year, inflow_at. simpl.
  rewrite H. simpl. split; reflexivity.
Qed.

End MatrixFacts.

(** A series that starts after 1970 has no survival matrix. *)
Example survival_matrix_needs_1970 (Phi : R -> R) :
  calculate_survival_matrix Phi 2024 1971 LIFETIMES = None.
Proof. apply survival_matrix_undefined. lia. Qed.

(** A year that occurs in two rows is counted twice, both times with the
    inflow of the first of them. *)
Example repeated_year_counts_first_row (Phi : R -> R) (r1 r2 : inflow_row) :
  year r1 = 2000%Z -> year r2 = 2000%Z ->
  stock_in_year Phi [r1; r2] 2000 commercial
  = Some (0 + commercial_concrete_mt r1
              * survival_function Phi 0 (LIFETIMES commercial)
            + commercial_concrete_mt r1
              * survival_function Phi 0 (LIFETIMES commercial)).
Proof.
  intros H1 H2. unfold stock_in_year, inflow_at. simpl. rewrite H1, H2. simpl.
  reflexivity.
Qed.

(** ** The survival probability *)

(** Case analysis on every comparison of reals the goal branches on. *)
Ltac case_compare :=
  repeat match goal with
         | |- context [Rle_dec ?a ?b] => destruct (Rle_dec a b)
         | |- context [Rlt_dec ?a ?b] => destruct (Rlt_dec a b)
         end.

Lemma py_max_Rmax (x : R) : py_max 0 x = Rmax 0 x.
Proof. unfold py_max, Rmax. case_compare; lra. Qed.

Lemma standardise_monotone (m s x1 x2 : R) :
  0 < s -> x1 <= x2 -> (x1 - m) / s <= (x2 - m) / s.
Proof.
  intros Hs Hx. unfold Rdiv.
  apply Rmult_le_compat_r; [|lra].
  left. now apply Rinv_0_lt_compat.
Qed.

Lemma Phi_uniform_range (z : R) : 0 <= Phi_uniform z <= 1.
Proof.
  unfold Phi_uniform, Rmin. case_compare; unfold Rmax; case_compare; lra.
Qed.

Lemma Phi_uniform_monotone (z1 z2 : R) :
  z1 <= z2 -> Phi_uniform z1 <= Phi_uniform z2.
Proof.
  intros H. unfold Phi_uniform, Rmin. case_compare; unfold Rmax; case_compare; lra.
Qed.


Section SurvivalFacts.

Variable Phi : R -> R.

Lemma norm_cdf_positive_scale (x loc scale : R) :
  0 < scale -> norm_cdf Phi x loc scale = Some (NormalCDF Phi x loc scale).
Proof.
  intros H. unfold norm_cdf. now destruct (Rlt_dec 0 scale).
Qed.

(** Without a positive scale the distribution function is [nan] and the
    clamp answers [0]. *)
Lemma survival_function_bad_scale (age : Z) (p : lifetime_params) :
  std p <= 0 -> survival_function Phi age p = 0.
Proof.
  intros H. unfold survival_function, norm_cdf.
  destruct (Rlt_dec 0 (std p)); [lra|reflexivity].
Qed.

Lemma survival_function_clamp (age : Z) (p : lifetime_params) :
  0 < std p ->
  survival_function Phi age p
  = py_max 0 (1 - NormalCDF Phi (IZR age) (mean p) (std p)).
Proof.
  intros H. unfold survival_function.
  now rewrite norm_cdf_positive_scale.
Qed.

Hypothesis Phi_monotone : forall z1 z2, z1 <= z2 -> Phi z1 <= Phi z2.

Lemma survival_function_antitone (p : lifetime_params) (a1 a2 : Z) :
  0 < std p -> (a1 <= a2)%Z ->
  survival_function Phi a2 p <= survival_function Phi a1 p.
Proof.
  intros Hs Ha. rewrite !survival_function_clamp, !py_max_Rmax by assumption.
  unfold NormalCDF.
  assert (Phi ((IZR a1 - mean p) / std p) <= Phi ((IZR a2 - mean p) / std p))
    as H.
  { apply Phi_monotone, standardise_monotone; [assumption|]. now apply IZR_le. }
  unfold Rmax. case_compare; lra.
Qed.

End SurvivalFacts.

(** At the mean lifetime half of a cohort is still standing. *)
Example survival_at_mean_age :
  survival_function Phi_uniform 70 (LIFETIMES residential) = 1 / 2.
Proof.
  unfold survival_function, norm_cdf. cbn [LIFETIMES mean std].
  destruct (Rlt_dec 0 20); [|lra].
  replace ((70 - 70) / 20) with 0 by lra.
  assert (Phi_uniform 0 = 1 / 2) as ->.
  { unfold Phi_uniform, Rmin. case_compare; unfold Rmax; case_compare; lra. }
  unfold py_max. case_compare; lra.
Qed.

(** C3. For every age and every lifetime parameters with a positive
    standard deviation, [survival_function] is [max(0, 1 - NormalCDF(a; m, s))]:
    the probability that a normally distributed lifetime exceeds the age,
    clamped below at zero. *)
Theorem survival_function_is_clamped_tail (Phi : R -> R) (a : Z)
    (params : lifetime_params) :
  0 < std params ->
  survival_function Phi a params
  = Rmax 0 (1 - NormalCDF Phi (IZR a) (mean params) (std params)).
Proof.
  intros H. rewrite survival_function_clamp by assumption. apply py_max_Rmax.
Qed.

Lemma survival_function_is_clamped_tail_witness :
  0 < std (LIFETIMES residential)
  /\ survival_function Phi_uniform 70 (LIFETIMES residential)
     = Rmax 0 (1 - NormalCDF Phi_uniform 70 70 20).
Proof.
  split.
  - simpl. lra.
  - apply (survival_function_is_clamped_tail Phi_uniform 70
             (LIFETIMES residential)).
    simpl. lra.
Defined.

(** C8. For every age and every lifetime parameters with a positive
    standard deviation the survival probability lies in [[0, 1]]: the clamp
    bounds it below, and one minus a value of a distribution function
    bounds it above. *)
Theorem survival_function_in_unit_interval (Phi : R -> R) (a : Z)
    (params : lifetime_params) :
  (forall z, 0 <= Phi z <= 1) ->
  0 < std params ->
  0 <= survival_function Phi a params <= 1.
Proof.
  intros HPhi Hs. rewrite survival_function_clamp by assumption.
  unfold NormalCDF, py_max.
  pose proof (HPhi ((IZR a - mean params) / std params)) as B.
  case_compare; lra.
Qed.

Lemma survival_function_in_unit_interval_witness :
  (forall z, 0 <= Phi_uniform z <= 1)
  /\ 0 < std (LIFETIMES commercial)
  /\ 0 <= survival_function Phi_uniform 54 (LIFETIMES commercial) <= 1.
Proof.
  split; [exact Phi_uniform_range|]. split.
  - simpl. lra.
  - apply (survival_function_in_unit_interval Phi_uniform 54
             (LIFETIMES commercial) Phi_uniform_range).
    simpl. lra.
Defined.

(** C9. The survival probability does not increase with age, for every
    lifetime parameters with a positive standard deviation; hence in a
    survival matrix an older cohort never has a higher probability than a
    younger one. *)
Theorem survival_never_increases_with_age (Phi : R -> R) :
  (forall z1 z2, z1 <= z2 -> Phi z1 <= Phi z2) ->
  (forall (params : lifetime_params) (a1 a2 : Z),
     0 < std params -> (a1 <= a2)%Z ->
     survival_function Phi a2 params <= survival_function Phi a1 params)
  /\ (forall (lifetimes : building_type -> lifetime_params)
             (current_year start_year : Z) (sm : survival_df)
             (b : building_type) (older younger : Z),
        0 < std (lifetimes b) ->
        calculate_survival_matrix Phi current_year start_year lifetimes
        = Some sm ->
        (start_year <= older <= younger)%Z ->
        (younger <= current_year)%Z ->
        exists p_older p_younger,
          df_loc sm older b = Some p_older
          /\ df_loc sm younger b = Some p_younger
          /\ p_older <= p_younger).
Proof.
  intros Hmono. split.
  - intros params a1 a2 Hs Ha. now apply survival_function_antitone.
  - intros lifetimes current_year start_year sm b older younger Hs Hsm Ho Hy.
    exists (survival_function Phi (current_year - older) (lifetimes b)),
           (survival_function Phi (current_year - younger) (lifetimes b)).
    split; [|split].
    + apply (survival_matrix_loc Phi _ _ _ _ _ _ Hsm). lia.
    + apply (survival_matrix_loc Phi _ _ _ _ _ _ Hsm). lia.
    + apply survival_function_antitone; [assumption|assumption|lia].
Qed.

Lemma survival_never_increases_with_age_witness :
  (forall z1 z2, z1 <= z2 -> Phi_uniform z1 <= Phi_uniform z2)
  /\ survival_function Phi_uniform 80 (LIFETIMES residential)
     <= survival_function Phi_uniform 60 (LIFETIMES residential)
  /\ exists p_older p_younger,
       df_loc sample_survival_matrix 1969 industrial = Some p_older
       /\ df_loc sample_survival_matrix 1971 industrial = Some p_younger
       /\ p_older <= p_younger.
Proof.
  split; [exact Phi_uniform_monotone|].
  destruct (survival_never_increases_with_age Phi_uniform Phi_uniform_monotone)
    as [Hage Hmatrix].
  split.
  - apply Hage; [simpl; lra|lia].
  - apply (Hmatrix LIFETIMES 1971%Z 1969%Z sample_survival_matrix industrial
             1969%Z 1971%Z); [simpl; lra|reflexivity|lia|lia].
Defined.

(** ** The stock time series *)

Section LaterCohorts.

Variable Phi : R -> R.

Lemma years_up_to_filter (inflows : list inflow_row) (y : Z) :
  filter (fun t => (t <=? y)%Z)
         (map year (filter (fun r => (year r <=? y)%Z) inflows))
  = filter (fun t => (t <=? y)%Z) (map year inflows).
Proof.
  induction inflows as [|r rest IH]; simpl; [reflexivity|].
  destruct (year r <=? y)%Z eqn:E; simpl; rewrite ?E, IH; reflexivity.
Qed.

Lemma inflow_in_year_filter (inflows : list inflow_row) (y t : Z)
    (b : building_type) :
  (t <= y)%Z ->
  inflow_in_year (filter (fun r => (year r <=? y)%Z) inflows) t b
  = inflow_in_year inflows t b.
Proof.
  intros Ht. unfold inflow_in_year, inflow_at.
  replace (filter (fun r => (year r =? t)%Z)
             (filter (fun r => (year r <=? y)%Z) inflows))
    with (filter (fun r => (year r =? t)%Z) inflows); [reflexivity|].
  induction inflows as [|r rest IH]; simpl; [reflexivity|].
  destruct (Z.eqb_spec (year r) t) as [E|E].
  - replace (year r <=? y)%Z with true by (symmetry; lia).
    simpl. destruct (Z.eqb_spec (year r) t); [|contradiction].
    now rewrite IH.
  - destruct (year r <=? y)%Z; simpl; [|assumption].
    destruct (Z.eqb_spec (year r) t); [contradiction|assumption].
Qed.

(** Rows built after [y] have no part in the accumulation for [y]. *)
Lemma cohort_sum_ignores_later (inflows : list inflow_row)
    (b : building_type) (y : Z) :
  cohort_sum Phi (filter (fun r => (year r <=? y)%Z) inflows) b y
  = cohort_sum Phi inflows b y.
Proof.
  unfold cohort_sum. rewrite years_up_to_filter. f_equal.
  apply map_ext_in. intros t Ht. apply filter_In in Ht.
  rewrite inflow_in_year_filter by lia. reflexivity.
Qed.

Lemma stock_timeseries_rows (inflows : list inflow_row)
    (survival_matrix : survival_df) (start_year end_year : Z) :
  calculate_stock_timeseries Phi inflows survival_matrix start_year end_year
  = Some (map (fun y =>
                 {| ys_year := y;
                    ys_residential := cohort_sum Phi inflows residential y;
                    ys_commercial := cohort_sum Phi inflows commercial y;
                    ys_institutional := cohort_sum Phi inflows institutional y;
                    ys_industrial := cohort_sum Phi inflows industrial y;
                    ys_total :=
                      py_sum [cohort_sum Phi inflows residential y;
                              cohort_sum Phi inflows commercial y;
                              cohort_sum Phi inflows institutional y;
                              cohort_sum Phi inflows industrial y] |})
              (py_range start_year (end_year + 1))).
Proof.
  unfold calculate_stock_timeseries. apply collect_total.
  intros y _. apply stocks_of_year_cohort_sum.
Qed.

End LaterCohorts.

(** C1. For every analysis year [y] between [start_year] and [end_year] and
    every building type [b], the stock that [calculate_stock_timeseries]
    reports for [y] is the sum, over the built years [t <= y] of the inflow
    table, of the inflow of type [b] in year [t] times
    [survival_function(y - t, LIFETIMES[b])]; rows built after [y]
    contribute nothing.  When no year occurs twice in the table this is the
    sum, over its rows built up to [y], of the row's inflow times the
    survival probability. *)
Theorem stock_timeseries_is_cohort_sum (Phi : R -> R)
    (inflows : list inflow_row) (survival_matrix : survival_df)
    (start_year end_year y : Z) (b : building_type) :
  (start_year <= y <= end_year)%Z ->
  exists rows row,
    calculate_stock_timeseries Phi inflows survival_matrix start_year end_year
    = Some rows
    /\ map ys_year rows = py_range start_year (end_year + 1)
    /\ nth_error rows (Z.to_nat (y - start_year)) = Some row
    /\ ys_year row = y
    /\ year_stocks_get b row = cohort_sum Phi inflows b y
    /\ year_stocks_get b row
       = cohort_sum Phi (filter (fun r => (year r <=? y)%Z) inflows) b y
    /\ (NoDup (map year inflows) ->
        year_stocks_get b row = cohort_sum_rows Phi inflows b y).
Proof.
  intros Hy. eexists. eexists.
  split; [apply stock_timeseries_rows|].
  split; [rewrite map_map; apply map_id|].
  split; [rewrite nth_error_map, py_range_nth by lia; reflexivity|].
  split; [reflexivity|].
  rewrite cohort_sum_ignores_later.
  split; [destruct b; reflexivity|].
  split; [destruct b; reflexivity|].
  intros Hunique. rewrite <- cohort_sum_unique_years by assumption.
  destruct b; reflexivity.
Qed.

Lemma stock_timeseries_is_cohort_sum_witness :
  (1969 <= 1970 <= 1971)%Z
  /\ exists rows row,
       calculate_stock_timeseries Phi_uniform sample_inflows
         sample_survival_matrix 1969 1971 = Some rows
       /\ map ys_year rows = [1969; 1970; 1971]%Z
       /\ nth_error rows (Z.to_nat (1970 - 1969)) = Some row
       /\ ys_year row = 1970%Z
       /\ year_stocks_get commercial row
          = cohort_sum Phi_uniform sample_inflows commercial 1970
       /\ year_stocks_get commercial row
          = cohort_sum_rows Phi_uniform sample_inflows commercial 1970.
Proof.
  split; [lia|].
  destruct (stock_timeseries_is_cohort_sum Phi_uniform sample_inflows
              sample_survival_matrix 1969 1971 1970 commercial)
    as [rows [row [Hrows [Hcol [Hnth [Hyear [Hsum [_ Hrow]]]]]]]]; [lia|].
  exists rows, row.
  split; [exact Hrows|]. split; [exact Hcol|].
  split; [exact Hnth|]. split; [exact Hyear|].
  split; [exact Hsum|].
  apply Hrow. simpl.
  repeat (constructor; [simpl; intuition lia|]). constructor.
Defined.

(** C2. When the years of the inflow table are exactly
    [start_year .. current_year] and the survival matrix is the one
    [calculate_survival_matrix(current_year, start_year, LIFETIMES)]
    produces, the stocks [calculate_stock] returns are those of the row of
    [calculate_stock_timeseries] for [current_year]: reading the matrix and
    recomputing the survival probability are the same accumulation. *)
Theorem calculate_stock_matches_timeseries (Phi : R -> R)
    (inflows : list inflow_row) (survival_matrix : survival_df)
    (start_year current_year : Z) :
  map year inflows = py_range start_year (current_year + 1) ->
  calculate_survival_matrix Phi current_year start_year LIFETIMES
  = Some survival_matrix ->
  exists stocks rows row,
    calculate_stock inflows survival_matrix current_year = Some stocks
    /\ calculate_stock_timeseries Phi inflows survival_matrix start_year
         current_year = Some rows
    /\ nth_error rows (Z.to_nat (current_year - start_year)) = Some row
    /\ ys_year row = current_year
    /\ (forall b, stocks_get b stocks = year_stocks_get b row)
    /\ st_total stocks = ys_total row.
Proof.
  intros Hyears Hsm.
  assert (start_year <= current_year)%Z as Hle.
  { destruct (Z_le_gt_dec start_year 1970), (Z_le_gt_dec 1970 current_year);
      try lia;
      rewrite survival_matrix_undefined in Hsm by lia; discriminate. }
  assert (forall t, In t (map year inflows) -> (start_year <= t)%Z) as Hfrom.
  { intros t Ht. rewrite Hyears in Ht. apply py_range_In in Ht. lia. }
  unfold calculate_stock.
  rewrite !(stock_of_type_cohort_sum Phi inflows start_year current_year)
    by assumption.
  cbn [obind].
  eexists. eexists. eexists.
  split; [reflexivity|].
  split; [apply stock_timeseries_rows|].
  split; [rewrite nth_error_map, py_range_nth by lia; reflexivity|].
  split; [reflexivity|].
  split; [intros b; destruct b; reflexivity|reflexivity].
Qed.

Lemma calculate_stock_matches_timeseries_witness :
  map year sample_inflows = py_range 1969 (1971 + 1)
  /\ calculate_survival_matrix Phi_uniform 1971 1969 LIFETIMES
     = Some sample_survival_matrix
  /\ exists stocks rows row,
       calculate_stock sample_inflows sample_survival_matrix 1971 = Some stocks
       /\ calculate_stock_timeseries Phi_uniform sample_inflows
            sample_survival_matrix 1969 1971 = Some rows
       /\ nth_error rows (Z.to_nat (1971 - 1969)) = Some row
       /\ ys_year row = 1971%Z
       /\ (forall b, stocks_get b stocks = year_stocks_get b row)
       /\ st_total stocks = ys_total row.
Proof.
  split; [reflexivity|]. split; [reflexivity|].
  apply (calculate_stock_matches_timeseries Phi_uniform sample_inflows
           sample_survival_matrix 1969 1971); reflexivity.
Defined.

(** ** Proportional allocation *)

Lemma scale_div_proportional (national_stock : R) (proxy : Series) :
  series_scale national_stock (series_div proxy (series_sum proxy))
  = proportional_allocation national_stock proxy.
Proof. unfold series_scale, series_div. apply map_map. Qed.

(** ** Weighted allocation *)

Lemma nth_map_within {A B : Type} (f : A -> B) (l : list A) (i : nat)
    (d : B) (d' : A) :
  (i < List.length l)%nat -> nth i (map f l) d = f (nth i l d').
Proof.
  intros H. rewrite (nth_indep _ d (f d')) by now rewrite length_map.
  apply map_nth.
Qed.

Lemma map_nth_seq (l : list R) (s : nat) :
  map (fun i => nth (i - s) l 0) (seq s (List.length l)) = l.
Proof.
  revert s; induction l as [|v l IH]; intros s; simpl; [reflexivity|].
  rewrite Nat.sub_diag. f_equal.
  rewrite <- (IH (S s)) at 2. apply map_ext_in.
  intros i Hi. apply in_seq in Hi.
  replace (i - s)%nat with (S (i - S s)) by lia. reflexivity.
Qed.

(** Adding a series of the same index to finite cells, position by
    position. *)
Lemma series_iadd_pointwise (g : nat -> R) (other : Series) (s n : nat) :
  List.length other = n ->
  series_iadd (cells_of (map g (seq s n))) other
  = cells_of (map (fun i => g i + nth (i - s) other 0) (seq s n)).
Proof.
  revert s other; induction n as [|n IH]; intros s other H.
  - reflexivity.
  - destruct other as [|v other]; [discriminate|].
    simpl in H. injection H as H.
    simpl. rewrite Nat.sub_diag. f_equal.
    rewrite (IH (S s) other H). unfold cells_of. f_equal.
    apply map_ext_in. intros i Hi. apply in_seq in Hi.
    replace (i - s)%nat with (S (i - S s)) by lia. reflexivity.
Qed.

(** A label of the accumulator that the added series lacks becomes [nan]. *)
Example series_iadd_misaligned :
  series_iadd [Some 1; Some 2] [5] = [Some (1 + 5); None].
Proof. reflexivity. Qed.

Section HybridFacts.

Variable self : SpatialAllocator.
Variable proxy_data : list (string * Series).
Variable n : nat.

Lemma hybrid_loop (weights : list (string * R)) (g : nat -> R) :
  proxies_aligned weights proxy_data n ->
  for_each weights (hybrid_step proxy_data) (cells_of (map g (seq 0 n))) self
  = (Returned
       (cells_of
          (map (fun i =>
                  g i + weighted_allocation_at (national_stock self) weights
                          proxy_data i)
               (seq 0 n))),
     self).
Proof.
  revert g; induction weights as [|item ws IH]; intros g Hal.
  - simpl. unfold ret. do 3 f_equal. apply map_ext. intros i.
    unfold weighted_allocation_at. simpl. lra.
  - assert (proxies_aligned ws proxy_data n) as Hal'.
    { intros it p Hin. apply Hal. now right. }
    cbn [for_each]. unfold bind at 1. unfold hybrid_step at 1.
    destruct (dict_get (fst item) proxy_data) as [proxy|] eqn:G.
    + destruct (Hal item proxy (or_introl eq_refl) G) as [Hlen _].
      unfold bind, self_national_stock, ret.
      rewrite series_iadd_pointwise
        by (unfold series_scale, series_div; now rewrite !length_map).
      rewrite IH by assumption. do 3 f_equal.
      apply map_ext_in. intros i Hi. apply in_seq in Hi.
      unfold weighted_allocation_at. cbn [map]. rewrite Rsum_cons, G.
      rewrite Nat.sub_0_r.
      unfold series_scale, series_div, proportional_allocation.
      rewrite map_map.
      rewrite (nth_map_within _ proxy i 0 0) by lia.
      rewrite (nth_map_within _ proxy i 0 0) by lia.
      unfold Rdiv. ring.
    + unfold ret. rewrite IH by assumption. do 3 f_equal.
      apply map_ext. intros i.
      unfold weighted_allocation_at. cbn [map]. rewrite Rsum_cons, G.
      lra.
Qed.

End HybridFacts.

(** ** The hybrid allocation *)

Lemma zeros_like_seq {A : Type} (l : list A) :
  zeros_like l = cells_of (map (fun _ => 0) (seq 0 (List.length l))).
Proof.
  unfold zeros_like, cells_of. rewrite map_map.
  generalize 0%nat. induction l as [|x l IH]; intros s; simpl.
  - reflexivity.
  - now rewrite (IH (S s)).
Qed.

Lemma exact_weights_pass (weights : list (string * R)) :
  py_sum (map snd weights) = 1.0 -> weights_sum_to_one weights.
Proof.
  intros H. unfold weights_sum_to_one. rewrite H.
  replace (1.0 - 1.0) with 0 by lra. rewrite Rabs_R0. lra.
Qed.

Section HybridOutcome.

Variable self : SpatialAllocator.
Variable weights : list (string * R).

Lemma allocate_hybrid_returns (name : string) (first : Series)
    (rest : list (string * Series)) :
  weights_sum_to_one weights ->
  proxies_aligned weights ((name, first) :: rest) (List.length first) ->
  allocate_hybrid weights ((name, first) :: rest) self
  = (Returned
       (cells_of (weighted_allocation (national_stock self) weights
                    ((name, first) :: rest) (List.length first))),
     self).
Proof.
  intros H Hal. unfold weights_sum_to_one in H.
  unfold allocate_hybrid. unfold bind at 1. unfold py_assert.
  destruct (Rlt_dec _ _); [|contradiction].
  unfold ret at 1, bind at 1, first_value, ret at 1.
  rewrite zeros_like_seq, hybrid_loop by assumption.
  unfold weighted_allocation. do 3 f_equal.
  apply map_ext. intros i. lra.
Qed.

End HybridOutcome.

(** ** The hybrid allocation returns *)

(** [allocate_national_stock] runs to completion: the weights it passes to
    [allocate_hybrid] sum to one and the proxies it passes are never
    empty. *)
Lemma hybrid_loop_returns (self : SpatialAllocator)
    (proxy_data : list (string * Series)) (weights : list (string * R))
    (result : list cell) :
  exists allocated,
    for_each weights (hybrid_step proxy_data) result self
    = (Returned allocated, self).
Proof.
  revert result; induction weights as [|item ws IH]; intros result.
  - eexists. reflexivity.
  - cbn [for_each]. unfold bind at 1, hybrid_step at 1.
    destruct (dict_get (fst item) proxy_data);
      unfold bind, self_national_stock, ret; apply IH.
Qed.

Lemma allocate_hybrid_completes (self : SpatialAllocator)
    (weights : list (string * R)) (name : string) (first : Series)
    (rest : list (string * Series)) :
  weights_sum_to_one weights ->
  exists allocated,
    call self (allocate_hybrid weights ((name, first) :: rest))
    = Returned allocated.
Proof.
  intros W. unfold weights_sum_to_one in W.
  unfold call, allocate_hybrid. unfold bind at 1. unfold py_assert.
  destruct (Rlt_dec _ _); [|contradiction].
  unfold ret at 1, bind at 1, first_value, ret at 1.
  destruct (hybrid_loop_returns self ((name, first) :: rest) weights
              (zeros_like first)) as [allocated ->].
  now exists allocated.
Qed.

(** ** Further properties of the cohort model *)

Lemma index_of_absent (x : Z) (xs : list Z) :
  ~ In x xs -> index_of x xs = None.
Proof.
  induction xs as [|y ys IH]; intros H; simpl; [reflexivity|].
  destruct (Z.eqb_spec y x) as [E|E].
  - exfalso. apply H. now left.
  - rewrite IH; [reflexivity|]. intros X. apply H. now right.
Qed.

Lemma df_loc_outside (df : survival_df) (y : Z) (b : building_type) :
  ~ In y (sm_index df) -> df_loc df y b = None.
Proof. intros H. unfold df_loc. now rewrite index_of_absent. Qed.

(** X1. [calculate_survival_matrix] fails with a [KeyError] exactly when
    1970 is not one of the years [start_year .. current_year]: its progress
    report reads the row of 1970.  When it returns, the matrix has one row
    per year of that range, and reading it for a built year [y] of the
    range gives [survival_function(current_year - y, lifetimes[b])], while
    any other year is a [KeyError]. *)
Theorem survival_matrix_needs_year_1970 (Phi : R -> R)
    (current_year start_year : Z)
    (lifetimes : building_type -> lifetime_params) :
  (calculate_survival_matrix Phi current_year start_year lifetimes = None
   <-> ~ (start_year <= 1970 <= current_year)%Z)
  /\ (forall sm,
        calculate_survival_matrix Phi current_year start_year lifetimes
        = Some sm ->
        sm_index sm = py_range start_year (current_year + 1)
        /\ (forall b,
              List.length (sm_col sm b)
              = Z.to_nat (current_year + 1 - start_year))
        /\ (forall y b,
              df_loc sm y b
              = if ((start_year <=? y) && (y <=? current_year))%Z%bool
                then Some (survival_function Phi (current_year - y)
                             (lifetimes b))
                else None)).
Proof.
  split.
  - split.
    + intros HNone Hin.
      destruct (survival_matrix_defined Phi current_year start_year lifetimes
                  Hin) as [sm Hsm].
      congruence.
    + apply survival_matrix_undefined.
  - intros sm Hsm.
    pose proof (survival_matrix_shape Phi _ _ _ _ Hsm) as Shape.
    split; [now rewrite Shape|]. split.
    + intros b. rewrite Shape. cbn [sm_col].
      unfold py_range. now rewrite !length_map, length_seq.
    + intros y b.
      destruct ((start_year <=? y)%Z && (y <=? current_year)%Z)%bool eqn:E.
      * apply andb_true_iff in E.
        apply (survival_matrix_loc Phi _ _ _ _ _ _ Hsm). lia.
      * apply df_loc_outside. rewrite Shape. cbn [sm_index].
        rewrite py_range_In. apply andb_false_iff in E. lia.
Qed.

Section MatrixStock.

Variable Phi : R -> R.
Variable lifetimes : building_type -> lifetime_params.
Variable inflows : list inflow_row.
Variables start_year current_year : Z.
Variable sm : survival_df.
Hypothesis sm_built :
  calculate_survival_matrix Phi current_year start_year lifetimes = Some sm.

Lemma stock_of_type_loop (b : building_type) (ys : list Z) (acc : R) :
  (forall t, In t ys -> In t (map year inflows)) ->
  fold_left
    (fun acc y =>
       let? stock := acc in
       if py_in y (sm_index sm) then
         let? inflow := inflow_at inflows y b in
         let? survival := df_loc sm y b in
         Some (stock + inflow * survival)
       else Some stock)
    ys (Some acc)
  = Some (acc
          + Rsum (map (fun t =>
                         inflow_in_year inflows t b
                         * survival_function Phi (current_year - t)
                             (lifetimes b))
                      (filter (fun t =>
                                 ((start_year <=? t) && (t <=? current_year))%Z%bool)
                              ys))).
Proof.
  assert (forall t,
            py_in t (sm_index sm)
            = ((start_year <=? t) && (t <=? current_year))%Z%bool) as Hin.
  { intros t. rewrite (survival_matrix_shape _ _ _ _ _ sm_built).
    cbn [sm_index]. rewrite py_in_range. f_equal.
    destruct (Z.leb_spec t current_year), (Z.ltb_spec t (current_year + 1));
      lia || reflexivity. }
  revert acc; induction ys as [|t ys IH]; intros acc H.
  - simpl. f_equal. lra.
  - cbn [fold_left obind filter]. rewrite (Hin t).
    destruct ((start_year <=? t)%Z && (t <=? current_year)%Z)%bool eqn:E.
    + apply andb_true_iff in E.
      rewrite inflow_at_present by (apply H; now left). cbn [obind].
      rewrite (survival_matrix_loc Phi _ _ t _ _ b sm_built) by lia.
      cbn [obind map]. rewrite IH by (intros z Hz; apply H; now right).
      rewrite Rsum_cons. f_equal. lra.
    + apply IH. intros z Hz. apply H. now right.
Qed.

Lemma stock_of_type_matrix_sum (b : building_type) :
  stock_of_type inflows sm b
  = Some (matrix_sum Phi lifetimes inflows start_year current_year b).
Proof.
  unfold stock_of_type, matrix_sum.
  rewrite stock_of_type_loop by auto. f_equal. lra.
Qed.

Lemma calculate_stock_matrix_sum (asked_year : Z) :
  calculate_stock inflows sm asked_year
  = Some {| st_residential :=
              matrix_sum Phi lifetimes inflows start_year current_year residential;
            st_commercial :=
              matrix_sum Phi lifetimes inflows start_year current_year commercial;
            st_institutional :=
              matrix_sum Phi lifetimes inflows start_year current_year
                institutional;
            st_industrial :=
              matrix_sum Phi lifetimes inflows start_year current_year industrial;
            st_total :=
              py_sum
                [matrix_sum Phi lifetimes inflows start_year current_year
                   residential;
                 matrix_sum Phi lifetimes inflows start_year current_year
                   commercial;
                 matrix_sum Phi lifetimes inflows start_year current_year
                   institutional;
                 matrix_sum Phi lifetimes inflows start_year current_year
                   industrial] |}.
Proof.
  unfold calculate_stock. now rewrite !stock_of_type_matrix_sum.
Qed.

End MatrixStock.

Lemma Rsum_all_zero {A : Type} (f : A -> R) (xs : list A) :
  (forall x, In x xs -> f x = 0) -> Rsum (map f xs) = 0.
Proof.
  induction xs as [|x xs IH]; intros H; simpl; [reflexivity|].
  rewrite (H x) by now left.
  rewrite IH by (intros z Hz; apply H; now right). lra.
Qed.

(** X2. With a matrix built by [calculate_survival_matrix] for the years
    [start_year .. current_year], [calculate_stock] returns, for each type,
    the sum over the built years of the inflow table inside that range of
    the inflow times the probability of surviving until [current_year];
    rows built before [start_year] or after [current_year] are skipped
    without an error, the total is the sum of the four types, and the year
    passed as third argument plays no part. *)
Theorem calculate_stock_reads_the_matrix (Phi : R -> R)
    (lifetimes : building_type -> lifetime_params)
    (inflows : list inflow_row) (start_year current_year asked_year : Z)
    (sm : survival_df) :
  calculate_survival_matrix Phi current_year start_year lifetimes = Some sm ->
  exists st,
    calculate_stock inflows sm asked_year = Some st
    /\ (forall b,
          stocks_get b st
          = matrix_sum Phi lifetimes inflows start_year current_year b)
    /\ (forall b,
          stocks_get b st
          = matrix_sum Phi lifetimes
              (filter (fun r =>
                         ((start_year <=? year r) && (year r <=? current_year))%Z%bool)
                      inflows)
              start_year current_year b)
    /\ st_total st
       = Rsum (map (fun b => stocks_get b st) building_types).
Proof.
  intros Hsm. eexists.
  split; [apply (calculate_stock_matrix_sum Phi _ _ _ _ _ Hsm)|].
  split; [intros b; destruct b; reflexivity|].
  split.
  - intros b.
    transitivity (matrix_sum Phi lifetimes inflows start_year current_year b);
      [destruct b; reflexivity|].
    unfold matrix_sum.
    assert (forall rows,
              filter (fun t => ((start_year <=? t) && (t <=? current_year))%Z%bool)
                     (map year
                        (filter (fun r =>
                                   ((start_year <=? year r)
                                    && (year r <=? current_year))%Z%bool) rows))
              = filter (fun t => ((start_year <=? t) && (t <=? current_year))%Z%bool)
                       (map year rows)) as Hyears.
    { induction rows as [|r rows IH]; simpl; [reflexivity|].
      destruct ((start_year <=? year r)%Z && (year r <=? current_year)%Z)%bool
        eqn:E; simpl; rewrite ?E, IH; reflexivity. }
    rewrite Hyears. f_equal. apply map_ext_in. intros t Ht.
    apply filter_In in Ht. destruct Ht as [_ Ht].
    f_equal. unfold inflow_in_year, inflow_at.
    replace (filter (fun r => (year r =? t)%Z)
               (filter (fun r =>
                          ((start_year <=? year r)
                           && (year r <=? current_year))%Z%bool) inflows))
      with (filter (fun r => (year r =? t)%Z) inflows); [reflexivity|].
    clear Hyears. induction inflows as [|r rows IH]; simpl; [reflexivity|].
    destruct (Z.eqb_spec (year r) t) as [E|E].
    + subst t. rewrite Ht. simpl. rewrite Z.eqb_refl. now rewrite IH.
    + destruct ((start_year <=? year r)%Z && (year r <=? current_year)%Z)%bool;
        simpl; [|assumption].
      destruct (Z.eqb_spec (year r) t); [contradiction|assumption].
  - cbn [st_total]. rewrite py_sum_Rsum. reflexivity.
Qed.

Lemma calculate_stock_reads_the_matrix_witness :
  calculate_survival_matrix Phi_uniform 1971 1969 LIFETIMES
  = Some sample_survival_matrix
  /\ exists st,
       calculate_stock sample_inflows sample_survival_matrix 1900 = Some st
       /\ stocks_get industrial st
          = matrix_sum Phi_uniform LIFETIMES sample_inflows 1969 1971 industrial.
Proof.
  split; [reflexivity|].
  destruct (calculate_stock_reads_the_matrix Phi_uniform LIFETIMES
              sample_inflows 1969 1971 1900 sample_survival_matrix eq_refl)
    as [st [Hst [Hsum _]]].
  exists st. split; [exact Hst|apply Hsum].
Defined.

(** X3. A lifetime whose standard deviation is not positive makes
    [norm.cdf] answer [nan], which the clamp of [survival_function] turns
    into 0: the whole column of the survival matrix is 0 and
    [calculate_stock] reports a stock of 0 for that type, without an
    error. *)
Theorem nonpositive_std_gives_zero_stock (Phi : R -> R)
    (lifetimes : building_type -> lifetime_params)
    (inflows : list inflow_row) (start_year current_year : Z)
    (sm : survival_df) (b : building_type) :
  std (lifetimes b) <= 0 ->
  calculate_survival_matrix Phi current_year start_year lifetimes = Some sm ->
  (forall y, (start_year <= y <= current_year)%Z -> df_loc sm y b = Some 0)
  /\ exists st,
       calculate_stock inflows sm current_year = Some st
       /\ stocks_get b st = 0.
Proof.
  intros Hstd Hsm. split.
  - intros y Hy. rewrite (survival_matrix_loc Phi _ _ _ _ _ b Hsm) by lia.
    now rewrite survival_function_bad_scale.
  - eexists. split; [apply (calculate_stock_matrix_sum Phi _ _ _ _ _ Hsm)|].
    transitivity (matrix_sum Phi lifetimes inflows start_year current_year b);
      [destruct b; reflexivity|].
    unfold matrix_sum. apply Rsum_all_zero. intros t _.
    rewrite survival_function_bad_scale by assumption. ring.
Qed.

Lemma nonpositive_std_gives_zero_stock_witness :
  std (fixed_lifetimes commercial) <= 0
  /\ calculate_survival_matrix Phi_uniform 1971 1969 fixed_lifetimes
     = Some fixed_survival_matrix
  /\ df_loc fixed_survival_matrix 1970 commercial = Some 0
  /\ exists st,
       calculate_stock sample_inflows fixed_survival_matrix 1971 = Some st
       /\ stocks_get commercial st = 0.
Proof.
  assert (std (fixed_lifetimes commercial) <= 0) as H by (simpl; lra).
  split; [exact H|]. split; [reflexivity|].
  destruct (nonpositive_std_gives_zero_stock Phi_uniform fixed_lifetimes
              sample_inflows 1969 1971 fixed_survival_matrix commercial H
              eq_refl) as [Hloc Hstock].
  split; [apply Hloc; lia|exact Hstock].
Defined.

(** ** Bounds on the stock *)

Lemma survival_function_range (Phi : R -> R) (age : Z) (p : lifetime_params) :
  (forall z, 0 <= Phi z <= 1) -> 0 <= survival_function Phi age p <= 1.
Proof.
  intros HPhi. unfold survival_function, norm_cdf.
  destruct (Rlt_dec 0 (std p)); [|lra].
  pose proof (HPhi ((IZR age - mean p) / std p)) as B.
  unfold py_max. case_compare; lra.
Qed.

Lemma Rsum_between {A : Type} (f g : A -> R) (xs : list A) :
  (forall x, In x xs -> 0 <= f x <= g x) ->
  0 <= Rsum (map f xs) <= Rsum (map g xs).
Proof.
  induction xs as [|x xs IH]; intros H; simpl; [lra|].
  pose proof (H x (or_introl eq_refl)) as Hx.
  assert (0 <= Rsum (map f xs) <= Rsum (map g xs)) as Hxs
    by (apply IH; intros z Hz; apply H; now right).
  lra.
Qed.

Lemma Rsum_le {A : Type} (f g : A -> R) (xs : list A) :
  (forall x, In x xs -> f x <= g x) ->
  Rsum (map f xs) <= Rsum (map g xs).
Proof.
  induction xs as [|x xs IH]; intros H; simpl; [lra|].
  pose proof (H x (or_introl eq_refl)) as Hx.
  assert (Rsum (map f xs) <= Rsum (map g xs)) as Hxs
    by (apply IH; intros z Hz; apply H; now right).
  lra.
Qed.

Lemma inflow_in_year_nonneg (inflows : list inflow_row) (t : Z)
    (b : building_type) :
  (forall r, In r inflows -> 0 <= inflow_col b r) ->
  0 <= inflow_in_year inflows t b.
Proof.
  intros H. unfold inflow_in_year, inflow_at.
  destruct (filter (fun r => (year r =? t)%Z) inflows) as [|r rest] eqn:F;
    [lra|].
  apply H.
  assert (In r (filter (fun r => (year r =? t)%Z) inflows)) as X
    by (rewrite F; now left).
  now apply filter_In in X.
Qed.

Lemma timeseries_row_cases (Phi : R -> R) (inflows : list inflow_row)
    (survival_matrix : survival_df) (start_year end_year : Z)
    (rows : list year_stocks) (row : year_stocks) :
  calculate_stock_timeseries Phi inflows survival_matrix start_year end_year
  = Some rows ->
  In row rows ->
  (start_year <= ys_year row <= end_year)%Z
  /\ (forall b, year_stocks_get b row = cohort_sum Phi inflows b (ys_year row))
  /\ ys_total row
     = Rsum (map (fun b => year_stocks_get b row) building_types).
Proof.
  rewrite stock_timeseries_rows. intros E Hin. injection E as <-.
  apply in_map_iff in Hin. destruct Hin as [y [<- Hy]].
  apply py_range_In in Hy. cbn [ys_year].
  split; [lia|]. split.
  - intros b. destruct b; reflexivity.
  - cbn [ys_total]. rewrite py_sum_Rsum. reflexivity.
Qed.

(** X4. When no year occurs twice in the inflow table, the inflows of a
    type are not negative and the distribution function has its values in
    [[0, 1]], every stock of the time series lies between 0 and the
    cumulative inflow of the type up to that year: the model never reports
    more concrete standing than was ever built. *)
Theorem stock_within_cumulative_inflow (Phi : R -> R)
    (inflows : list inflow_row) (survival_matrix : survival_df)
    (start_year end_year : Z) (b : building_type) :
  (forall z, 0 <= Phi z <= 1) ->
  NoDup (map year inflows) ->
  (forall r, In r inflows -> 0 <= inflow_col b r) ->
  exists rows,
    calculate_stock_timeseries Phi inflows survival_matrix start_year end_year
    = Some rows
    /\ forall row,
         In row rows ->
         0 <= year_stocks_get b row
         <= cumulative_inflow inflows b (ys_year row).
Proof.
  intros HPhi Hunique Hpos.
  exists (map (fun y =>
                 {| ys_year := y;
                    ys_residential := cohort_sum Phi inflows residential y;
                    ys_commercial := cohort_sum Phi inflows commercial y;
                    ys_institutional := cohort_sum Phi inflows institutional y;
                    ys_industrial := cohort_sum Phi inflows industrial y;
                    ys_total :=
                      py_sum [cohort_sum Phi inflows residential y;
                              cohort_sum Phi inflows commercial y;
                              cohort_sum Phi inflows institutional y;
                              cohort_sum Phi inflows industrial y] |})
              (py_range start_year (end_year + 1))).
  split; [apply stock_timeseries_rows|].
  intros row Hin.
  destruct (timeseries_row_cases Phi inflows survival_matrix start_year end_year
              _ row (stock_timeseries_rows Phi _ _ _ _) Hin) as [_ [Hsum _]].
  rewrite Hsum, cohort_sum_unique_years by assumption.
  unfold cohort_sum_rows, cumulative_inflow.
  apply Rsum_between. intros r Hr. apply filter_In in Hr. destruct Hr as [Hr _].
  pose proof (Hpos r Hr) as P.
  pose proof (survival_function_range Phi (ys_year row - year r) (LIFETIMES b)
                HPhi) as S.
  nra.
Qed.

Lemma stock_within_cumulative_inflow_witness :
  (forall z, 0 <= Phi_uniform z <= 1)
  /\ NoDup (map year sample_inflows)
  /\ (forall r, In r sample_inflows -> 0 <= inflow_col commercial r)
  /\ exists rows,
       calculate_stock_timeseries Phi_uniform sample_inflows
         sample_survival_matrix 1969 1971 = Some rows
       /\ forall row,
            In row rows ->
            0 <= year_stocks_get commercial row
            <= cumulative_inflow sample_inflows commercial (ys_year row).
Proof.
  assert (NoDup (map year sample_inflows)) as U.
  { simpl. repeat (constructor; [simpl; intuition lia|]). constructor. }
  assert (forall r, In r sample_inflows -> 0 <= inflow_col commercial r) as P.
  { intros r [<-|[<-|[<-|[]]]]; simpl;
      unfold CONCRETE_TO_CEMENT_RATIO, BUILDING_FRACTION; lra. }
  split; [exact Phi_uniform_range|]. split; [exact U|]. split; [exact P|].
  exact (stock_within_cumulative_inflow Phi_uniform sample_inflows
           sample_survival_matrix 1969 1971 commercial Phi_uniform_range U P).
Defined.

Lemma LIFETIMES_std_positive (b : building_type) : 0 < std (LIFETIMES b).
Proof. destruct b; simpl; lra. Qed.

Lemma filter_all {A : Type} (p : A -> bool) (xs : list A) :
  (forall x, In x xs -> p x = true) -> filter p xs = xs.
Proof.
  induction xs as [|x xs IH]; intros H; simpl; [reflexivity|].
  rewrite (H x) by now left. f_equal. apply IH. intros z Hz. apply H. now right.
Qed.

Lemma filter_none {A : Type} (p : A -> bool) (xs : list A) :
  (forall x, In x xs -> p x = false) -> filter p xs = [].
Proof.
  induction xs as [|x xs IH]; intros H; simpl; [reflexivity|].
  rewrite (H x) by now left. apply IH. intros z Hz. apply H. now right.
Qed.

(** Once every row of the table is built, a later year never has more
    stock of a type than an earlier one. *)
Lemma cohort_sum_declines (Phi : R -> R) (inflows : list inflow_row)
    (b : building_type) (y1 y2 : Z) :
  (forall z1 z2, z1 <= z2 -> Phi z1 <= Phi z2) ->
  (forall r, In r inflows -> 0 <= inflow_col b r) ->
  (forall r, In r inflows -> (year r <= y1)%Z) ->
  (y1 <= y2)%Z ->
  cohort_sum Phi inflows b y2 <= cohort_sum Phi inflows b y1.
Proof.
  intros Hmono Hpos Hbuilt Hle. unfold cohort_sum.
  assert (forall y, (y1 <= y)%Z ->
            filter (fun t => (t <=? y)%Z) (map year inflows) = map year inflows)
    as Hall.
  { intros y Hy. apply filter_all. intros t Ht.
    apply in_map_iff in Ht. destruct Ht as [r [<- Hr]].
    apply Z.leb_le. specialize (Hbuilt r Hr). lia. }
  rewrite (Hall y1), (Hall y2) by lia.
  apply Rsum_le. intros t _.
  apply Rmult_le_compat_l; [now apply inflow_in_year_nonneg|].
  apply survival_function_antitone;
    [assumption|apply LIFETIMES_std_positive|lia].
Qed.

(** X5. When the distribution function is non-decreasing and the inflows
    are not negative, the stock only declines once construction has
    stopped: for two years [y1 <= y2] of the time series that are not
    earlier than any built year of the table, the row of [y2] has at most
    the stock of the row of [y1], for each type and in total. *)
Theorem stock_declines_after_last_inflow (Phi : R -> R)
    (inflows : list inflow_row) (survival_matrix : survival_df)
    (start_year end_year y1 y2 : Z) :
  (forall z1 z2, z1 <= z2 -> Phi z1 <= Phi z2) ->
  (forall r b, In r inflows -> 0 <= inflow_col b r) ->
  (forall r, In r inflows -> (year r <= y1)%Z) ->
  (start_year <= y1)%Z -> (y1 <= y2)%Z -> (y2 <= end_year)%Z ->
  exists rows row1 row2,
    calculate_stock_timeseries Phi inflows survival_matrix start_year end_year
    = Some rows
    /\ nth_error rows (Z.to_nat (y1 - start_year)) = Some row1
    /\ nth_error rows (Z.to_nat (y2 - start_year)) = Some row2
    /\ (forall b, year_stocks_get b row2 <= year_stocks_get b row1)
    /\ ys_total row2 <= ys_total row1.
Proof.
  intros Hmono Hpos Hbuilt H1 H12 H2.
  assert (forall b,
            cohort_sum Phi inflows b y2 <= cohort_sum Phi inflows b y1) as D.
  { intros b. apply cohort_sum_declines; try assumption.
    intros r Hr. now apply Hpos. }
  eexists. eexists. eexists.
  split; [apply stock_timeseries_rows|].
  split; [rewrite nth_error_map, py_range_nth by lia; reflexivity|].
  split; [rewrite nth_error_map, py_range_nth by lia; reflexivity|].
  split.
  - intros b. destruct b; apply D.
  - cbn [ys_total]. rewrite !py_sum_Rsum, !Rsum_cons.
    pose proof (D residential). pose proof (D commercial).
    pose proof (D institutional). pose proof (D industrial). lra.
Qed.

Lemma stock_declines_after_last_inflow_witness :
  (forall z1 z2, z1 <= z2 -> Phi_uniform z1 <= Phi_uniform z2)
  /\ (forall r b, In r sample_inflows -> 0 <= inflow_col b r)
  /\ (forall r, In r sample_inflows -> (year r <= 1971)%Z)
  /\ exists rows row1 row2,
       calculate_stock_timeseries Phi_uniform sample_inflows
         sample_survival_matrix 1969 2060 = Some rows
       /\ nth_error rows (Z.to_nat (1971 - 1969)) = Some row1
       /\ nth_error rows (Z.to_nat (2050 - 1969)) = Some row2
       /\ (forall b, year_stocks_get b row2 <= year_stocks_get b row1)
       /\ ys_total row2 <= ys_total row1.
Proof.
  assert (forall r b, In r sample_inflows -> 0 <= inflow_col b r) as P.
  { intros r b [<-|[<-|[<-|[]]]]; destruct b; simpl;
      unfold CONCRETE_TO_CEMENT_RATIO, BUILDING_FRACTION; lra. }
  assert (forall r, In r sample_inflows -> (year r <= 1971)%Z) as B.
  { intros r [<-|[<-|[<-|[]]]]; simpl; lia. }
  split; [exact Phi_uniform_monotone|]. split; [exact P|]. split; [exact B|].
  apply (stock_declines_after_last_inflow Phi_uniform sample_inflows
           sample_survival_matrix 1969 2060 1971 2050 Phi_uniform_monotone P B);
    lia.
Defined.

(** X6. The edges of the time series: when [end_year] is before
    [start_year] the table is empty, and a year that is earlier than every
    built year of the inflow table (every year, for an empty table) has a
    stock of 0 for each type and in total. *)
Theorem stock_timeseries_edges (Phi : R -> R) (inflows : list inflow_row)
    (survival_matrix : survival_df) (start_year end_year : Z) :
  ((end_year < start_year)%Z ->
   calculate_stock_timeseries Phi inflows survival_matrix start_year end_year
   = Some [])
  /\ (forall y,
        (start_year <= y <= end_year)%Z ->
        (forall r, In r inflows -> (y < year r)%Z) ->
        exists rows,
          calculate_stock_timeseries Phi inflows survival_matrix start_year
            end_year = Some rows
          /\ nth_error rows (Z.to_nat (y - start_year))
             = Some {| ys_year := y;
                       ys_residential := 0;
                       ys_commercial := 0;
                       ys_institutional := 0;
                       ys_industrial := 0;
                       ys_total := 0 |}).
Proof.
  split.
  - intros H. rewrite stock_timeseries_rows. unfold py_range.
    replace (Z.to_nat (end_year + 1 - start_year)) with 0%nat by lia.
    reflexivity.
  - intros y Hy Hlater.
    assert (forall b, cohort_sum Phi inflows b y = 0) as Z0.
    { intros b. unfold cohort_sum. rewrite filter_none; [reflexivity|].
      intros t Ht. apply in_map_iff in Ht. destruct Ht as [r [<- Hr]].
      apply Z.leb_gt. now apply Hlater. }
    eexists. split; [apply stock_timeseries_rows|].
    rewrite nth_error_map, py_range_nth by lia. cbn [option_map].
    rewrite !Z0. do 2 f_equal. unfold py_sum. simpl. lra.
Qed.

Lemma stock_timeseries_edges_witness :
  calculate_stock_timeseries Phi_uniform sample_inflows sample_survival_matrix
    1971 1969 = Some []
  /\ exists rows,
       calculate_stock_timeseries Phi_uniform sample_inflows
         sample_survival_matrix 1960 1971 = Some rows
       /\ nth_error rows (Z.to_nat (1968 - 1960))
          = Some {| ys_year := 1968;
                    ys_residential := 0;
                    ys_commercial := 0;
                    ys_institutional := 0;
                    ys_industrial := 0;
                    ys_total := 0 |}.
Proof.
  split.
  - apply (proj1 (stock_timeseries_edges Phi_uniform sample_inflows
                    sample_survival_matrix 1971 1969)). lia.
  - apply (proj2 (stock_timeseries_edges Phi_uniform sample_inflows
                    sample_survival_matrix 1960 1971) 1968%Z); [lia|].
    intros r [<-|[<-|[<-|[]]]]; simpl; lia.
Defined.

(** ** The join of the two tables *)

Lemma py_in_In (x : Z) (xs : list Z) : py_in x xs = true <-> In x xs.
Proof.
  unfold py_in. rewrite existsb_exists. split.
  - intros [z [Hz E]]. apply Z.eqb_eq in E. now subst z.
  - intros H. exists x. split; [assumption|apply Z.eqb_refl].
Qed.

Lemma py_in_cons (x y : Z) (xs : list Z) :
  py_in x (y :: xs) = ((x =? y)%Z || py_in x xs)%bool.
Proof. reflexivity. Qed.

(** With one spending row per year, a year selects its row or nothing. *)
Lemma matching_rows_unique (spending_data : list spending_row) (k : Z) :
  NoDup (map s_year spending_data) ->
  map s_year (filter (fun s => (s_year s =? k)%Z) spending_data)
  = if py_in k (map s_year spending_data) then [k] else [].
Proof.
  induction spending_data as [|s rest IH]; intros Hunique; [reflexivity|].
  cbn [map] in Hunique. apply NoDup_cons_iff in Hunique.
  destruct Hunique as [Hnew Hunique].
  cbn [filter map]. rewrite py_in_cons, (Z.eqb_sym k).
  destruct (Z.eqb_spec (s_year s) k) as [E|E].
  - cbn [map orb]. rewrite E. f_equal.
    rewrite (IH Hunique).
    destruct (py_in k (map s_year rest)) eqn:X; [|reflexivity].
    apply py_in_In in X. rewrite <- E in X. contradiction.
  - cbn [orb]. apply (IH Hunique).
Qed.

Lemma concrete_inflows_years (cement_data : list cement_row)
    (spending_data : list spending_row) :
  NoDup (map s_year spending_data) ->
  map year (calculate_concrete_inflows cement_data spending_data)
  = filter (fun y => py_in y (map s_year spending_data))
           (map c_year cement_data).
Proof.
  intros Hunique. unfold calculate_concrete_inflows.
  induction cement_data as [|c rest IH]; [reflexivity|].
  cbn [flat_map map filter]. rewrite map_app, IH, map_map.
  replace (map (fun s => year (inflow_of_merged c s))
               (filter (fun s => (s_year s =? c_year c)%Z) spending_data))
    with (map (fun _ : spending_row => c_year c)
              (filter (fun s => (s_year s =? c_year c)%Z) spending_data))
    by reflexivity.
  pose proof (matching_rows_unique spending_data (c_year c) Hunique) as M.
  destruct (py_in (c_year c) (map s_year spending_data)).
  - destruct (filter (fun s => (s_year s =? c_year c)%Z) spending_data)
      as [|s [|s' more]]; try discriminate. reflexivity.
  - destruct (filter (fun s => (s_year s =? c_year c)%Z) spending_data);
      [reflexivity|discriminate].
Qed.

(** X7. The merge of [calculate_concrete_inflows] is an inner join: when the
    spending table has one row per year, the years of the inflow table are
    the years of the production table that the spending table also has, in
    the order of the production table, so that a year without a partner is
    dropped and there are never more rows than production rows; when the
    production years are distinct as well, no year occurs twice in the
    inflow table. *)
Theorem concrete_inflows_keep_matched_years (cement_data : list cement_row)
    (spending_data : list spending_row) :
  NoDup (map s_year spending_data) ->
  map year (calculate_concrete_inflows cement_data spending_data)
  = filter (fun y => py_in y (map s_year spending_data))
           (map c_year cement_data)
  /\ (List.length (calculate_concrete_inflows cement_data spending_data)
      <= List.length cement_data)%nat
  /\ (NoDup (map c_year cement_data) ->
      NoDup (map year (calculate_concrete_inflows cement_data spending_data))).
Proof.
  intros Hunique.
  pose proof (concrete_inflows_years cement_data spending_data Hunique) as Y.
  split; [exact Y|]. split.
  - rewrite <- (length_map year), Y, <- (length_map c_year cement_data).
    apply filter_length_le.
  - intros Hc. rewrite Y. now apply NoDup_filter.
Qed.

Lemma concrete_inflows_keep_matched_years_witness :
  NoDup (map s_year sample_spending)
  /\ map year
       (calculate_concrete_inflows
          ({| c_year := 1968; production_mt := 71 |} :: sample_cement)
          sample_spending)
     = [1969; 1970; 1971]%Z.
Proof.
  assert (NoDup (map s_year sample_spending)) as U.
  { simpl. repeat (constructor; [simpl; intuition lia|]). constructor. }
  split; [exact U|].
  exact (proj1 (concrete_inflows_keep_matched_years
                  ({| c_year := 1968; production_mt := 71 |} :: sample_cement)
                  sample_spending U)).
Defined.

(** ** The main function *)

Lemma fold_left_min_le (xs : list Z) (a : Z) :
  (fold_left Z.min xs a <= a)%Z
  /\ forall x, In x xs -> (fold_left Z.min xs a <= x)%Z.
Proof.
  revert a; induction xs as [|y ys IH]; intros a; simpl.
  - split; [lia|intros x []].
  - destruct (IH (Z.min a y)) as [Ha Hys]. split; [lia|].
    intros x [<-|Hx]; [lia|now apply Hys].
Qed.

Lemma series_min_le (xs : list Z) (m : Z) :
  series_min xs = Some m -> forall x, In x xs -> (m <= x)%Z.
Proof.
  destruct xs as [|a xs]; [discriminate|].
  simpl. intros E. injection E as <-.
  destruct (fold_left_min_le xs a) as [Ha Hxs].
  intros x [<-|Hx]; [exact Ha|now apply Hxs].
Qed.

Lemma concrete_inflows_year_from_cement (cement_data : list cement_row)
    (spending_data : list spending_row) (t : Z) :
  In t (map year (calculate_concrete_inflows cement_data spending_data)) ->
  In t (map c_year cement_data).
Proof.
  intros H. apply in_map_iff in H. destruct H as [row [<- Hrow]].
  unfold calculate_concrete_inflows in Hrow.
  apply in_flat_map in Hrow. destruct Hrow as [c [Hc Hrow]].
  apply in_map_iff in Hrow. destruct Hrow as [s [<- _]].
  cbn [year inflow_of_merged]. now apply in_map.
Qed.

Lemma concrete_inflows_empty_iff (cement_data : list cement_row)
    (spending_data : list spending_row) :
  calculate_concrete_inflows cement_data spending_data = []
  <-> forall c s,
        In c cement_data -> In s spending_data -> s_year s <> c_year c.
Proof.
  split.
  - intros E c s Hc Hs Hy.
    assert (In (inflow_of_merged c s)
               (calculate_concrete_inflows cement_data spending_data)) as X.
    { unfold calculate_concrete_inflows. apply in_flat_map.
      exists c. split; [assumption|].
      apply in_map, filter_In. split; [assumption|]. now apply Z.eqb_eq. }
    rewrite E in X. destruct X.
  - intros H.
    destruct (calculate_concrete_inflows cement_data spending_data)
      as [|row rest] eqn:E; [reflexivity|].
    assert (In row (calculate_concrete_inflows cement_data spending_data)) as X
      by (rewrite E; now left).
    unfold calculate_concrete_inflows in X.
    apply in_flat_map in X. destruct X as [c [Hc X]].
    apply in_map_iff in X. destruct X as [s [_ Hs]].
    apply filter_In in Hs. destruct Hs as [Hs Hy]. apply Z.eqb_eq in Hy.
    exfalso. exact (H c s Hc Hs Hy).
Qed.

(** X9. A call of [calculate_concrete_inflows] fails, on the [idxmax] of
    its report, exactly when the two tables have no year in common, an
    empty table included; otherwise it returns the joined table, which
    then has at least one row. *)
Theorem concrete_inflows_need_common_year (cement_data : list cement_row)
    (spending_data : list spending_row) :
  (calculate_concrete_inflows_reported cement_data spending_data = None
   <-> forall c s,
         In c cement_data -> In s spending_data -> s_year s <> c_year c)
  /\ (forall df,
        calculate_concrete_inflows_reported cement_data spending_data
        = Some df ->
        df = calculate_concrete_inflows cement_data spending_data
        /\ df <> []).
Proof.
  unfold calculate_concrete_inflows_reported.
  rewrite <- concrete_inflows_empty_iff.
  destruct (calculate_concrete_inflows cement_data spending_data)
    as [|row rest].
  - split; [tauto|discriminate].
  - split.
    + split; discriminate.
    + intros df E. injection E as <-. split; [reflexivity|discriminate].
Qed.

(** X8. [main] on any two tables, up to its plotting step: without
    production rows it fails, and so it does when the first production
    year is after 1970, on the [KeyError] of the survival matrix, and when
    the two tables have no year in common, on the [ValueError] of the
    inflow report.  When the first production year [start] is 1970 or
    earlier and some year is common to both tables, it reaches the call of
    [plot_results]: the time series it hands over has one row for each of
    the years [start .. 2024], and the stock it has computed and printed
    is the last row of the series, type by type and in total, whatever
    years the two tables hold. *)
Theorem main_until_plot_outcome (Phi : R -> R) (cement_data : list cement_row)
    (spending_data : list spending_row) :
  (cement_data = [] -> main_until_plot Phi cement_data spending_data = None)
  /\ (forall start,
        series_min (map c_year cement_data) = Some start ->
        (1970 < start)%Z ->
        main_until_plot Phi cement_data spending_data = None)
  /\ ((forall c s,
         In c cement_data -> In s spending_data -> s_year s <> c_year c) ->
      main_until_plot Phi cement_data spending_data = None)
  /\ (forall start c s,
        series_min (map c_year cement_data) = Some start ->
        (start <= 1970)%Z ->
        In c cement_data -> In s spending_data -> s_year s = c_year c ->
        exists st rows latest,
          main_until_plot Phi cement_data spending_data
          = Some (st, rows,
                  calculate_concrete_inflows cement_data spending_data)
          /\ map ys_year rows = py_range start (CURRENT_YEAR + 1)
          /\ nth_error rows (List.length rows - 1) = Some latest
          /\ ys_year latest = CURRENT_YEAR
          /\ (forall b, stocks_get b st = year_stocks_get b latest)
          /\ st_total st = ys_total latest).
Proof.
  split; [now intros ->|]. split; [|split].
  - intros start Hmin Hlate. unfold main_until_plot. rewrite Hmin.
    cbn [obind].
    rewrite survival_matrix_undefined by lia. reflexivity.
  - intros Hnone. apply concrete_inflows_empty_iff in Hnone.
    unfold main_until_plot, calculate_concrete_inflows_reported.
    rewrite Hnone.
    destruct (series_min (map c_year cement_data)); [|reflexivity].
    cbn [obind].
    destruct (calculate_survival_matrix Phi CURRENT_YEAR z LIFETIMES);
      reflexivity.
  - intros start c s Hmin Hearly Hc Hs Hy.
    unfold main_until_plot, CURRENT_YEAR in *.
    rewrite Hmin. cbn [obind].
    destruct (survival_matrix_defined Phi 2024 start LIFETIMES) as [sm Hsm];
      [lia|].
    rewrite Hsm. cbn [obind].
    assert (forall t,
              In t (map year
                      (calculate_concrete_inflows cement_data spending_data)) ->
              (start <= t)%Z) as Hfrom.
    { intros t Ht. apply (series_min_le _ _ Hmin).
      now apply (concrete_inflows_year_from_cement _ spending_data). }
    unfold calculate_concrete_inflows_reported.
    destruct (calculate_concrete_inflows cement_data spending_data)
      as [|row rest] eqn:E.
    { exfalso.
      exact (proj1 (concrete_inflows_empty_iff _ _) E c s Hc Hs Hy). }
    cbn [obind]. unfold calculate_stock.
    rewrite !(stock_of_type_cohort_sum Phi _ start 2024 sm) by assumption.
    cbn [obind]. rewrite stock_timeseries_rows. cbn [obind].
    assert (List.length (py_range start (2024 + 1)) - 1
            = Z.to_nat (2024 - start))%nat as Hlast.
    { unfold py_range. rewrite length_map, length_seq. lia. }
    eexists. eexists. eexists.
    split; [reflexivity|].
    split; [rewrite map_map; apply map_id|].
    split; [rewrite length_map, Hlast, nth_error_map, py_range_nth by lia;
            reflexivity|].
    split; [reflexivity|].
    split; [intros b; destruct b; reflexivity|reflexivity].
Qed.

Lemma main_until_plot_outcome_witness :
  series_min (map c_year load_usgs_cement_data) = Some 1950%Z
  /\ exists st rows latest,
       main_until_plot Phi_uniform load_usgs_cement_data
         load_construction_spending
       = Some (st, rows,
               calculate_concrete_inflows load_usgs_cement_data
                 load_construction_spending)
       /\ List.length rows = 75%nat
       /\ nth_error rows 74 = Some latest
       /\ ys_year latest = 2024%Z
       /\ (forall b, stocks_get b st = year_stocks_get b latest)
       /\ st_total st = ys_total latest.
Proof.
  assert (series_min (map c_year load_usgs_cement_data) = Some 1950%Z) as M
    by reflexivity.
  split; [exact M|].
  destruct (proj2 (proj2 (proj2 (main_until_plot_outcome Phi_uniform
                                   load_usgs_cement_data
                                   load_construction_spending)))
              1950%Z
              {| c_year := 1950; production_mt := 40 + 0 * 1.5 |}
              {| s_year := 1950;
                 residential_fraction := 0.60;
                 commercial_fraction := 0.25;
                 institutional_fraction := 0.10;
                 industrial_fraction := 0.05 |} M)
    as [st [rows [latest [Hmain [Hyears [Hlast [Hy [Hb Ht]]]]]]]];
    [lia|now left|now left|reflexivity|].
  assert (List.length rows = 75%nat) as L.
  { rewrite <- (length_map ys_year), Hyears. reflexivity. }
  exists st, rows, latest.
  split; [exact Hmain|]. split; [exact L|].
  split; [rewrite L in Hlast; exact Hlast|].
  split; [exact Hy|]. split; [exact Hb|exact Ht].
Defined.

(** ** Further properties of the allocation methods *)

Lemma weighted_allocation_single (ns : R) (name : string) (proxy : Series)
    (rest : list (string * Series)) :
  weighted_allocation ns [(name, 1.0)] ((name, proxy) :: rest)
    (List.length proxy)
  = proportional_allocation ns proxy.
Proof.
  assert (List.length (proportional_allocation ns proxy) = List.length proxy)
    as L by (unfold proportional_allocation; apply length_map).
  unfold weighted_allocation. rewrite <- L.
  transitivity (map (fun i => nth (i - 0) (proportional_allocation ns proxy) 0)
                    (seq 0 (List.length (proportional_allocation ns proxy))));
    [|apply map_nth_seq].
  apply map_ext. intros i.
  unfold weighted_allocation_at. cbn [map fst snd dict_get].
  rewrite String.eqb_refl, Rsum_cons, Nat.sub_0_r. simpl. lra.
Qed.

(** X12. The hybrid method with a single proxy of weight 1.0 is the
    single-proxy method: for a proxy whose sum is not zero it returns the
    values of [allocate_by_population] on that proxy, whatever other
    series are supplied after it. *)
Theorem hybrid_with_one_proxy_is_proportional (self : SpatialAllocator)
    (name : string) (proxy : Series) (rest : list (string * Series)) :
  series_sum proxy <> 0 ->
  exists allocated,
    allocate_by_population proxy self = (Returned allocated, self)
    /\ allocate_hybrid [(name, 1.0)] ((name, proxy) :: rest) self
       = (Returned (cells_of allocated), self).
Proof.
  intros H. exists (proportional_allocation (national_stock self) proxy).
  split.
  - unfold allocate_by_population, bind, self_national_stock, ret.
    now rewrite scale_div_proportional.
  - rewrite allocate_hybrid_returns.
    + now rewrite weighted_allocation_single.
    + apply exact_weights_pass. unfold py_sum. simpl. lra.
    + intros item p [<-|[]] G. cbn [fst dict_get] in G.
      rewrite String.eqb_refl in G. injection G as <-. now split.
Qed.

Lemma hybrid_with_one_proxy_is_proportional_witness :
  series_sum sample_population <> 0
  /\ exists allocated,
       allocate_by_population sample_population sample_allocator
       = (Returned allocated, sample_allocator)
       /\ allocate_hybrid [("population", 1.0)]
            [("population", sample_population);
             ("floor_area", sample_floor_area)] sample_allocator
          = (Returned (cells_of allocated), sample_allocator).
Proof.
  assert (series_sum sample_population <> 0) as H
    by (unfold series_sum, sample_population; simpl; lra).
  split; [exact H|].
  exact (hybrid_with_one_proxy_is_proportional sample_allocator "population"
           sample_population [("floor_area", sample_floor_area)] H).
Defined.

Lemma for_each_agree {A S : Type} (body1 body2 : S -> A -> method S)
    (xs : list A) :
  (forall s x self, In x xs -> body1 s x self = body2 s x self) ->
  forall s self, for_each xs body1 s self = for_each xs body2 s self.
Proof.
  induction xs as [|x xs IH]; intros H s self; [reflexivity|].
  cbn [for_each]. unfold bind. rewrite (H s x self) by now left.
  destruct (body2 s x self) as [[s'|e] self']; [|reflexivity].
  apply IH. intros s0 z self0 Hz. apply H. now right.
Qed.

Lemma dict_get_skip {A : Type} (k name : string) (v : A)
    (before after : list (string * A)) :
  name <> k ->
  dict_get name (before ++ (k, v) :: after) = dict_get name (before ++ after).
Proof.
  intros Hne. induction before as [|[k' v'] before IH]; simpl.
  - destruct (String.eqb_spec k name) as [E|E]; [|reflexivity].
    exfalso. apply Hne. now symmetry.
  - now rewrite IH.
Qed.

(** X13. A proxy series that is supplied to [allocate_hybrid] but has no
    weight is ignored, as long as it is not the first keyword (the first
    series gives the result its index): the outcome is the one of the call
    without it. *)
Theorem hybrid_ignores_unweighted_proxy (self : SpatialAllocator)
    (weights : list (string * R)) (first : string * Series)
    (before after : list (string * Series)) (k : string) (extra : Series) :
  ~ In k (map fst weights) ->
  allocate_hybrid weights (first :: before ++ (k, extra) :: after) self
  = allocate_hybrid weights (first :: before ++ after) self.
Proof.
  intros Hk. unfold allocate_hybrid, bind.
  destruct (py_assert _ self) as [[[]|e] self']; [|reflexivity].
  destruct first as [name first]. cbn [first_value app].
  cbv beta iota delta [ret].
  apply for_each_agree. intros result item self0 Hin.
  unfold hybrid_step.
  assert (fst item <> k) as Hne.
  { intros E. apply Hk. rewrite <- E. now apply in_map. }
  pose proof (dict_get_skip k (fst item) extra ((name, first) :: before) after
                Hne) as E.
  rewrite <- !app_comm_cons in E. now rewrite E.
Qed.

Lemma hybrid_ignores_unweighted_proxy_witness :
  ~ In "gdp" (map fst [("population", 0.6); ("floor_area", 0.4)])
  /\ allocate_hybrid [("population", 0.6); ("floor_area", 0.4)]
       [("population", sample_population); ("gdp", [3900; 2400]);
        ("floor_area", sample_floor_area)] sample_allocator
     = allocate_hybrid [("population", 0.6); ("floor_area", 0.4)]
         [("population", sample_population);
          ("floor_area", sample_floor_area)] sample_allocator.
Proof.
  assert (~ In "gdp" (map fst [("population", 0.6); ("floor_area", 0.4)]))
    as H.
  { simpl. intros [E|[E|[]]]; discriminate. }
  split; [exact H|].
  exact (hybrid_ignores_unweighted_proxy sample_allocator
           [("population", 0.6); ("floor_area", 0.4)]
           ("population", sample_population) []
           [("floor_area", sample_floor_area)] "gdp" [3900; 2400] H).
Defined.

(** ** The stock columns of the national allocation *)

Lemma string_length_append (a b : string) :
  String.length (String.append a b) = (String.length a + String.length b)%nat.
Proof. induction a as [|c a IH]; simpl; [reflexivity|now rewrite IH]. Qed.

Lemma string_append_same_suffix (a b s : string) :
  String.append a s = String.append b s -> a = b.
Proof.
  intros H.
  assert (String.length a = String.length b) as L.
  { apply (f_equal String.length) in H.
    rewrite !string_length_append in H. lia. }
  revert b H L; induction a as [|c a IH]; intros [|d b] H L;
    try discriminate L; [reflexivity|].
  simpl in H. injection H as -> H. f_equal. apply IH; [assumption|].
  simpl in L. lia.
Qed.

Lemma stock_column_name_injective (a b : string) :
  stock_column_name a = stock_column_name b -> a = b.
Proof. apply string_append_same_suffix. Qed.

Lemma dict_set_new {A : Type} (k : string) (v : A) (d : list (string * A)) :
  ~ In k (map fst d) -> dict_set k v d = d ++ [(k, v)].
Proof.
  induction d as [|[k' v'] d IH]; intros H; simpl; [reflexivity|].
  destruct (String.eqb_spec k' k) as [E|E].
  - exfalso. apply H. now left.
  - rewrite IH; [reflexivity|]. intros X. apply H. now right.
Qed.

(** What a round of the loop over the national stocks does to the table. *)
Lemma allocate_building_type_step (method_name : string)
    (region : list region_row) (columns : list (string * list cell))
    (item : string * R) :
  allocate_building_type method_name region columns item
  = Returned
      (if handled method_name (fst item)
       then dict_set (stock_column_name (fst item))
              (stock_column method_name region item) columns
       else columns).
Proof.
  unfold stock_column, handled, stock_column_name, allocate_building_type.
  repeat match goal with
         | |- context [String.eqb ?a ?b] => destruct (String.eqb a b)
         end;
    cbn [negb andb orb]; try reflexivity;
    (edestruct allocate_hybrid_completes as [allocated ->]; [|reflexivity]);
    apply exact_weights_pass; unfold py_sum; simpl; lra.
Qed.

Lemma national_columns_loop (method_name : string) (region : list region_row)
    (items : list (string * R)) (columns : list (string * list cell)) :
  NoDup (map fst items) ->
  (forall item,
     In item items -> ~ In (stock_column_name (fst item)) (map fst columns)) ->
  loop (allocate_building_type method_name region) items columns
  = Returned
      (columns
       ++ map (fun item =>
                 (stock_column_name (fst item),
                  stock_column method_name region item))
              (filter (fun item => handled method_name (fst item)) items)).
Proof.
  revert columns; induction items as [|item rest IH]; intros columns Hu Hnew.
  - simpl. now rewrite app_nil_r.
  - cbn [map] in Hu. apply NoDup_cons_iff in Hu. destruct Hu as [Hitem Hu].
    cbn [loop filter]. rewrite allocate_building_type_step.
    destruct (handled method_name (fst item)).
    + rewrite dict_set_new by (apply Hnew; now left).
      rewrite IH; [now rewrite <- app_assoc|assumption|].
      intros other Hother. rewrite map_app, in_app_iff. intros [X|[X|[]]].
      * exact (Hnew other (or_intror Hother) X).
      * cbn [fst] in X. apply stock_column_name_injective in X.
        apply Hitem. rewrite X. now apply in_map.
    + apply IH; [assumption|]. intros other Hother. apply Hnew. now right.
Qed.

Lemma national_columns (method_name : string) (proxy_data : list proxy_row)
    (national_stocks : list (string * R)) :
  NoDup (map fst national_stocks) ->
  loop (allocate_building_type method_name
          (calculate_regional_characteristics proxy_data))
       national_stocks []
  = Returned
      (map (fun item =>
              (stock_column_name (fst item),
               stock_column method_name
                 (calculate_regional_characteristics proxy_data) item))
           (filter (fun item => handled method_name (fst item))
                   national_stocks)).
Proof.
  intros Hu. rewrite national_columns_loop; [reflexivity|assumption|].
  intros item _ [].
Qed.

Lemma series_iadd_length (result : list cell) (other : Series) :
  List.length (series_iadd result other) = List.length result.
Proof.
  revert other; induction result as [|c result IH]; intros other;
    [reflexivity|].
  destruct other as [|v other]; simpl; now rewrite IH.
Qed.

Lemma hybrid_loop_length (self : SpatialAllocator)
    (proxy_data : list (string * Series)) (weights : list (string * R))
    (result : list cell) :
  exists allocated,
    for_each weights (hybrid_step proxy_data) result self
    = (Returned allocated, self)
    /\ List.length allocated = List.length result.
Proof.
  revert result; induction weights as [|item ws IH]; intros result.
  - eexists. split; reflexivity.
  - cbn [for_each]. unfold bind at 1, hybrid_step at 1.
    destruct (dict_get (fst item) proxy_data) as [proxy|].
    + unfold bind, self_national_stock, ret.
      destruct (IH (series_iadd result
                      (series_scale (snd item * national_stock self)
                         (series_div proxy (series_sum proxy)))))
        as [allocated [E L]].
      exists allocated. split; [exact E|].
      now rewrite L, series_iadd_length.
    + unfold ret. apply IH.
Qed.

Lemma allocate_hybrid_length (self : SpatialAllocator)
    (weights : list (string * R)) (name : string) (first : Series)
    (rest : list (string * Series)) :
  weights_sum_to_one weights ->
  exists allocated,
    call self (allocate_hybrid weights ((name, first) :: rest))
    = Returned allocated
    /\ List.length allocated = List.length first.
Proof.
  intros W. unfold weights_sum_to_one in W.
  unfold call, allocate_hybrid. unfold bind at 1. unfold py_assert.
  destruct (Rlt_dec _ _); [|contradiction].
  unfold ret at 1, bind at 1, first_value, ret at 1.
  destruct (hybrid_loop_length self ((name, first) :: rest) weights
              (zeros_like first)) as [allocated [-> L]].
  exists allocated. split; [reflexivity|].
  rewrite L. unfold zeros_like. apply length_map.
Qed.

Lemma stock_column_length (method_name : string) (region : list region_row)
    (item : string * R) :
  handled method_name (fst item) = true ->
  List.length (stock_column method_name region item) = List.length region.
Proof.
  unfold stock_column, handled, allocate_building_type.
  repeat match goal with
         | |- context [String.eqb ?a ?b] => destruct (String.eqb a b)
         end;
    cbn [negb andb orb]; intros H; try discriminate H;
    try (cbn; unfold cells_of, series_scale, series_div;
         now rewrite !length_map);
    (edestruct allocate_hybrid_length as [allocated [-> L]];
     [apply exact_weights_pass; unfold py_sum; simpl; lra|]);
    cbn; rewrite L; apply length_map.
Qed.

Lemma dict_get_absent {A : Type} (k : string) (d : list (string * A)) :
  ~ In k (map fst d) -> dict_get k d = None.
Proof.
  induction d as [|[k' v'] d IH]; intros H; simpl; [reflexivity|].
  destruct (String.eqb_spec k' k) as [E|E].
  - exfalso. apply H. now left.
  - apply IH. intros X. apply H. now right.
Qed.

Lemma dict_get_stock_column {A : Type} (p : string * R -> bool)
    (v : string * R -> A) (items : list (string * R)) (item : string * R) :
  NoDup (map fst items) -> In item items ->
  dict_get (stock_column_name (fst item))
    (map (fun it => (stock_column_name (fst it), v it)) (filter p items))
  = if p item then Some (v item) else None.
Proof.
  induction items as [|it rest IH]; intros Hu Hin; [destruct Hin|].
  cbn [map] in Hu. apply NoDup_cons_iff in Hu. destruct Hu as [Hit Hu].
  assert (forall other : string * R,
            ~ In (fst other) (map fst rest) ->
            dict_get (stock_column_name (fst other))
              (map (fun it => (stock_column_name (fst it), v it))
                   (filter p rest)) = None) as Habsent.
  { intros other Ho. apply dict_get_absent. rewrite map_map. cbn [fst].
    intros X. apply in_map_iff in X. destruct X as [it' [E Hit']].
    apply stock_column_name_injective in E.
    apply filter_In in Hit'. destruct Hit' as [Hit' _].
    apply Ho. rewrite <- E. now apply in_map. }
  cbn [filter]. destruct Hin as [->|Hin].
  - destruct (p item); cbn [map dict_get].
    + now rewrite String.eqb_refl.
    + now apply Habsent.
  - assert (fst it <> fst item) as Hne.
    { intros E. apply Hit. rewrite E. now apply in_map. }
    destruct (p it); cbn [map dict_get]; [|now apply IH].
    destruct (String.eqb_spec (stock_column_name (fst it))
                (stock_column_name (fst item))) as [E|E]; [|now apply IH].
    exfalso. apply Hne. now apply stock_column_name_injective.
Qed.

Lemma region_length (proxy_data : list proxy_row) :
  List.length (calculate_regional_characteristics proxy_data)
  = List.length proxy_data.
Proof. apply length_map. Qed.

Lemma region_column {A : Type} (f : proxy_row -> A)
    (proxy_data : list proxy_row) :
  map (fun r => f (proxy r)) (calculate_regional_characteristics proxy_data)
  = map f proxy_data.
Proof. unfold calculate_regional_characteristics. now rewrite map_map. Qed.

(** X15. The stock columns of [allocate_national_stock].  When no name
    occurs twice in [national_stocks], the call returns a table whose stock
    columns are, in the order of the dictionary, the columns
    [f'{name}_stock'] of the entries that the method handles: every entry
    but ['total'] under ['population'], ['gdp'] and ['floor_area'], and
    only the four building types under ['hybrid'].  Any other entry is
    dropped without an error and has no column.  Every column, the totals
    and the per-capita values have one value per row of the proxy
    table. *)
Theorem national_allocation_columns (national_stocks : list (string * R))
    (proxy_data : list proxy_row) (method_name : string) :
  NoDup (map fst national_stocks) ->
  exists results,
    allocate_national_stock national_stocks proxy_data method_name
    = Returned results
    /\ map fst (res_stock results)
       = map (fun item => stock_column_name (fst item))
             (filter (fun item => handled method_name (fst item))
                     national_stocks)
    /\ (forall item,
          In item national_stocks ->
          if handled method_name (fst item)
          then exists column,
                 dict_get (stock_column_name (fst item)) (res_stock results)
                 = Some column
                 /\ List.length column = List.length proxy_data
          else dict_get (stock_column_name (fst item)) (res_stock results)
               = None)
    /\ List.length (total_stock results) = List.length proxy_data
    /\ List.length (stock_per_capita results) = List.length proxy_data
    /\ res_state results = map state proxy_data.
Proof.
  intros Hu. unfold allocate_national_stock.
  rewrite national_columns by assumption. cbn [outcome_map].
  eexists. split; [reflexivity|]. cbn [res_stock total_stock stock_per_capita
                                       res_state].
  split; [now rewrite map_map|]. split; [|split; [|split]].
  - intros item Hin.
    rewrite (dict_get_stock_column
               (fun it => handled method_name (fst it))
               (stock_column method_name
                  (calculate_regional_characteristics proxy_data))
               national_stocks item Hu Hin).
    destruct (handled method_name (fst item)) eqn:Hh; [|reflexivity].
    eexists. split; [reflexivity|].
    now rewrite stock_column_length, region_length.
  - now rewrite length_map, length_seq.
  - rewrite length_map, length_combine, !length_map, length_seq, region_length.
    apply Nat.min_id.
  - reflexivity.
Qed.

Lemma national_allocation_columns_witness :
  NoDup (map fst [("residential", 3000); ("warehouse", 500); ("total", 3500)])
  /\ exists results,
       allocate_national_stock
         [("residential", 3000); ("warehouse", 500); ("total", 3500)]
         sample_proxy_data "hybrid" = Returned results
       /\ map fst (res_stock results) = ["residential_stock"]
       /\ dict_get "warehouse_stock" (res_stock results) = None
       /\ List.length (total_stock results) = 2%nat.
Proof.
  assert (NoDup (map fst [("residential", 3000); ("warehouse", 500);
                          ("total", 3500)])) as U.
  { simpl. repeat (constructor; [simpl; intuition discriminate|]).
    constructor. }
  split; [exact U|].
  destruct (national_allocation_columns
              [("residential", 3000); ("warehouse", 500); ("total", 3500)]
              sample_proxy_data "hybrid" U)
    as [results [Hret [Hnames [Hget [Hlen _]]]]].
  exists results. split; [exact Hret|]. split; [exact Hnames|].
  split; [|exact Hlen].
  exact (Hget ("warehouse", 500) (or_intror (or_introl eq_refl))).
Defined.

Lemma national_columns_unhandled (method_name : string)
    (region : list region_row) (items : list (string * R))
    (columns : list (string * list cell)) :
  (forall item, In item items -> handled method_name (fst item) = false) ->
  loop (allocate_building_type method_name region) items columns
  = Returned columns.
Proof.
  revert columns; induction items as [|item rest IH]; intros columns H;
    [reflexivity|].
  cbn [loop]. rewrite allocate_building_type_step.
  rewrite (H item) by now left.
  apply IH. intros other Ho. apply H. now right.
Qed.

(** X16. A method name that [allocate_national_stock] does not know is not
    rejected: for any name other than ['population'], ['gdp'],
    ['floor_area'] and ['hybrid'] the call returns a table without any
    stock column, in which the total stock of every region is 0. *)
Theorem unknown_method_allocates_nothing (national_stocks : list (string * R))
    (proxy_data : list proxy_row) (method_name : string) :
  method_name <> "population" -> method_name <> "gdp" ->
  method_name <> "floor_area" -> method_name <> "hybrid" ->
  exists results,
    allocate_national_stock national_stocks proxy_data method_name
    = Returned results
    /\ res_stock results = []
    /\ total_stock results = map (fun _ => 0) proxy_data
    /\ res_state results = map state proxy_data.
Proof.
  intros Hp Hg Hf Hh.
  assert (forall name, handled method_name name = false) as Hnone.
  { intros name. unfold handled.
    destruct (String.eqb_spec method_name "population"); [contradiction|].
    destruct (String.eqb_spec method_name "gdp"); [contradiction|].
    destruct (String.eqb_spec method_name "floor_area"); [contradiction|].
    destruct (String.eqb_spec method_name "hybrid"); [contradiction|].
    cbn [orb andb]. apply andb_false_r. }
  unfold allocate_national_stock.
  rewrite national_columns_unhandled by (intros item _; apply Hnone).
  cbn [outcome_map]. eexists. split; [reflexivity|].
  cbn [res_stock total_stock res_state].
  split; [reflexivity|]. split; [|reflexivity].
  unfold cells_sum. cbn [map Rsum fold_right].
  generalize 0%nat. induction proxy_data as [|r rest IH]; intros s;
    [reflexivity|].
  cbn [List.length seq map]. now rewrite IH.
Qed.

Lemma unknown_method_allocates_nothing_witness :
  exists results,
    allocate_national_stock [("residential", 3000); ("total", 3000)]
      sample_proxy_data "Population" = Returned results
    /\ res_stock results = []
    /\ total_stock results = [0; 0].
Proof.
  destruct (unknown_method_allocates_nothing
              [("residential", 3000); ("total", 3000)] sample_proxy_data
              "Population")
    as [results [Hret [Hcols [Htotal _]]]]; try discriminate.
  exists results. split; [exact Hret|]. split; [exact Hcols|exact Htotal].
Defined.

(** ** The bounds of a proportional allocation *)

Lemma Rsum_nonneg (xs : list R) :
  (forall x, In x xs -> 0 <= x) -> 0 <= Rsum xs.
Proof.
  induction xs as [|x xs IH]; intros H; simpl; [lra|].
  pose proof (H x (or_introl eq_refl)).
  assert (0 <= Rsum xs) by (apply IH; intros z Hz; apply H; now right).
  lra.
Qed.

Lemma Rsum_bounds_member (xs : list R) (v : R) :
  (forall x, In x xs -> 0 <= x) -> In v xs -> v <= Rsum xs.
Proof.
  induction xs as [|x xs IH]; intros H Hin; [destruct Hin|].
  rewrite Rsum_cons.
  assert (0 <= Rsum xs)
    by (apply Rsum_nonneg; intros z Hz; apply H; now right).
  pose proof (H x (or_introl eq_refl)).
  destruct Hin as [->|Hin]; [lra|].
  assert (v <= Rsum xs) by (apply IH; [intros z Hz; apply H; now right|exact Hin]).
  lra.
Qed.

(** X20. No region receives a negative stock or more than the whole: when
    the national stock and the values of the proxy are not negative and
    the proxy has a non-zero sum, every value that [allocate_by_population]
    returns lies between 0 and the national stock. *)
Theorem single_proxy_allocation_within_total (self : SpatialAllocator)
    (proxy : Series) :
  0 <= national_stock self ->
  (forall v, In v proxy -> 0 <= v) ->
  series_sum proxy <> 0 ->
  exists allocated,
    allocate_by_population proxy self = (Returned allocated, self)
    /\ List.length allocated = List.length proxy
    /\ forall a, In a allocated -> 0 <= a <= national_stock self.
Proof.
  intros Hns Hpos Hsum.
  exists (proportional_allocation (national_stock self) proxy).
  split; [|split].
  - unfold allocate_by_population, bind, self_national_stock, ret.
    now rewrite scale_div_proportional.
  - unfold proportional_allocation. apply length_map.
  - intros a Ha. unfold proportional_allocation in Ha.
    apply in_map_iff in Ha. destruct Ha as [v [<- Hv]].
    pose proof (Hpos v Hv) as Hv0.
    pose proof (Rsum_bounds_member proxy v Hpos Hv) as Hle.
    pose proof (Rsum_nonneg proxy Hpos) as Hs0.
    unfold series_sum in *.
    assert (0 < Rsum proxy) as Hs by lra.
    assert (0 <= v / Rsum proxy <= 1) as Hshare.
    { split.
      - apply Rmult_le_pos; [assumption|].
        left. now apply Rinv_0_lt_compat.
      - apply (Rmult_le_reg_r (Rsum proxy)); [assumption|].
        unfold Rdiv. rewrite Rmult_assoc, Rinv_l by lra. lra. }
    nra.
Qed.

Lemma single_proxy_allocation_within_total_witness :
  0 <= national_stock sample_allocator
  /\ (forall v, In v sample_population -> 0 <= v)
  /\ series_sum sample_population <> 0
  /\ exists allocated,
       allocate_by_population sample_population sample_allocator
       = (Returned allocated, sample_allocator)
       /\ forall a, In a allocated -> 0 <= a <= 3000.
Proof.
  assert (0 <= national_stock sample_allocator) as N by (simpl; lra).
  assert (forall v, In v sample_population -> 0 <= v) as P.
  { intros v [<-|[<-|[]]]; lra. }
  assert (series_sum sample_population <> 0) as H
    by (unfold series_sum, sample_population; simpl; lra).
  split; [exact N|]. split; [exact P|]. split; [exact H|].
  destruct (single_proxy_allocation_within_total sample_allocator
              sample_population N P H) as [allocated [Hret [_ Hb]]].
  exists allocated. split; [exact Hret|exact Hb].
Defined.

(** ** Spending and building types *)

(** X10. [allocate_by_construction_spending] gives no unit a negative stock
    or more than the whole: when the national stock and the spending of
    every unit in every year are not negative and the grand total of the
    spending is not zero, it returns one value per column of the table,
    each between 0 and the national stock, and exactly 0 for a unit that
    never spent; the allocator is left as it was. *)
Theorem construction_spending_allocation_within_total
    (self : SpatialAllocator) (spending_ts : list (string * Series)) :
  let cumulative := map (fun c => series_sum (snd c)) spending_ts in
  0 <= national_stock self ->
  (forall c v, In c spending_ts -> In v (snd c) -> 0 <= v) ->
  series_sum cumulative <> 0 ->
  exists allocated,
    allocate_by_construction_spending spending_ts self
    = (Returned allocated, self)
    /\ List.length allocated = List.length spending_ts
    /\ (forall a, In a allocated -> 0 <= a <= national_stock self)
    /\ (forall i c,
          nth_error spending_ts i = Some c ->
          (forall v, In v (snd c) -> v = 0) ->
          nth_error allocated i = Some 0).
Proof.
  intros cumulative Hns Hpos Hsum.
  assert (forall t, In t cumulative -> 0 <= t) as Hcum.
  { intros t Ht. unfold cumulative in Ht. apply in_map_iff in Ht.
    destruct Ht as [c [<- Hc]]. apply Rsum_nonneg. intros v. now apply Hpos. }
  exists (proportional_allocation (national_stock self) cumulative).
  split; [|split; [|split]].
  - unfold allocate_by_construction_spending, bind, self_national_stock, ret.
    fold cumulative. now rewrite scale_div_proportional.
  - unfold proportional_allocation, cumulative. now rewrite !length_map.
  - intros a Ha. unfold proportional_allocation in Ha.
    apply in_map_iff in Ha. destruct Ha as [t [<- Ht]].
    pose proof (Hcum t Ht) as Ht0.
    pose proof (Rsum_bounds_member cumulative t Hcum Ht) as Hle.
    pose proof (Rsum_nonneg cumulative Hcum) as Hs0.
    unfold series_sum in *.
    assert (0 < Rsum cumulative) as Hs by lra.
    assert (0 <= t / Rsum cumulative <= 1) as Hshare.
    { split.
      - apply Rmult_le_pos; [assumption|].
        left. now apply Rinv_0_lt_compat.
      - apply (Rmult_le_reg_r (Rsum cumulative)); [assumption|].
        unfold Rdiv. rewrite Rmult_assoc, Rinv_l by lra. lra. }
    nra.
  - intros i c Hi Hzero.
    unfold proportional_allocation, cumulative.
    rewrite map_map, nth_error_map, Hi. cbn [option_map]. f_equal.
    assert (series_sum (snd c) = 0) as E.
    { unfold series_sum. clear Hi.
      induction (snd c) as [|v vs IH]; [reflexivity|].
      rewrite Rsum_cons, (Hzero v) by now left.
      rewrite IH; [lra|]. intros w Hw. apply Hzero. now right. }
    rewrite E. unfold Rdiv. ring.
Qed.

Lemma construction_spending_allocation_within_total_witness :
  0 <= national_stock sample_allocator
  /\ exists allocated,
       allocate_by_construction_spending
         [("California", [10; 30]); ("Texas", [0; 0])] sample_allocator
       = (Returned allocated, sample_allocator)
       /\ List.length allocated = 2%nat
       /\ (forall a, In a allocated -> 0 <= a <= 3000)
       /\ nth_error allocated 1 = Some 0.
Proof.
  assert (0 <= national_stock sample_allocator) as N by (simpl; lra).
  split; [exact N|].
  destruct (construction_spending_allocation_within_total sample_allocator
              [("California", [10; 30]); ("Texas", [0; 0])] N)
    as [allocated [Hret [Hlen [Hb Hz]]]].
  - intros c v [<-|[<-|[]]] [<-|[<-|[]]]; lra.
  - unfold series_sum. simpl. lra.
  - exists allocated. split; [exact Hret|]. split; [exact Hlen|].
    split; [exact Hb|].
    apply (Hz 1%nat ("Texas", [0; 0])); [reflexivity|].
    intros v [<-|[<-|[]]]; reflexivity.
Defined.

(** The loop of [allocate_with_building_types] passes over an intensity
    whose type has no column. *)
Lemma intensity_loop_known (fractions : list (string * Series))
    (intensities : list (string * R)) (scores : list cell)
    (self : SpatialAllocator) :
  for_each intensities (intensity_step fractions) scores self
  = for_each (filter (fun item =>
                        match dict_get (fst item) fractions with
                        | Some _ => true
                        | None => false
                        end) intensities)
      (intensity_step fractions) scores self.
Proof.
  revert scores self; induction intensities as [|item rest IH];
    intros scores self; [reflexivity|].
  cbn [filter for_each].
  destruct (dict_get (fst item) fractions) as [column|] eqn:E.
  - cbn [for_each]. unfold bind.
    destruct (intensity_step fractions scores item self) as [[s|e] self'];
      [apply IH|reflexivity].
  - unfold bind at 1, intensity_step at 1. rewrite E. unfold ret. apply IH.
Qed.

Lemma intensity_loop_length (fractions : list (string * Series))
    (intensities : list (string * R)) (scores : list cell)
    (self : SpatialAllocator) :
  exists scores',
    for_each intensities (intensity_step fractions) scores self
    = (Returned scores', self)
    /\ List.length scores' = List.length scores.
Proof.
  revert scores; induction intensities as [|item rest IH]; intros scores.
  - eexists. split; reflexivity.
  - cbn [for_each]. unfold bind at 1, intensity_step at 1.
    destruct (dict_get (fst item) fractions) as [column|]; unfold ret.
    + destruct (IH (series_iadd scores (series_times column (snd item))))
        as [scores' [E L]].
      exists scores'. split; [exact E|].
      now rewrite L, series_iadd_length.
    + apply IH.
Qed.

(** X14. [allocate_with_building_types] passes over every intensity whose
    building type has no column in the table, without an error: the
    outcome is the one of the call with only the intensities of the types
    that the table has.  It never raises, returns one value per entry of
    the index and leaves the allocator as it was. *)
Theorem building_type_allocation_skips_unknown_types
    (self : SpatialAllocator) (index : list string)
    (building_type_fractions : list (string * Series))
    (type_intensities : list (string * R)) :
  let known :=
    filter (fun item =>
              match dict_get (fst item) building_type_fractions with
              | Some _ => true
              | None => false
              end) type_intensities in
  allocate_with_building_types index building_type_fractions
    type_intensities self
  = allocate_with_building_types index building_type_fractions known self
  /\ exists allocated,
       allocate_with_building_types index building_type_fractions
         type_intensities self
       = (Returned allocated, self)
       /\ List.length allocated = List.length index.
Proof.
  intros known. split.
  - unfold allocate_with_building_types. unfold bind at 1 3.
    now rewrite intensity_loop_known.
  - unfold allocate_with_building_types. unfold bind at 1.
    destruct (intensity_loop_length building_type_fractions type_intensities
                (zeros_like index) self) as [scores [-> L]].
    unfold bind, self_national_stock, ret. eexists. split; [reflexivity|].
    unfold cells_map. rewrite 2 length_map.
    unfold zeros_like in L. rewrite length_map in L. exact L.
Qed.

(** The intensity of mobile homes, for which the table has no column,
    changes nothing. *)
Lemma building_type_allocation_skips_unknown_types_witness :
  allocate_with_building_types ["California"; "Texas"]
    [("high_rise", [0.5; 0.2]); ("detached", [0.5; 0.8])]
    [("high_rise", 3); ("mobile", 2); ("detached", 1)] sample_allocator
  = allocate_with_building_types ["California"; "Texas"]
      [("high_rise", [0.5; 0.2]); ("detached", [0.5; 0.8])]
      [("high_rise", 3); ("detached", 1)] sample_allocator.
Proof.
  exact (proj1 (building_type_allocation_skips_unknown_types sample_allocator
                  ["California"; "Texas"]
                  [("high_rise", [0.5; 0.2]); ("detached", [0.5; 0.8])]
                  [("high_rise", 3); ("mobile", 2); ("detached", 1)])).
Defined.

(** ** The national allocation never raises *)

Lemma national_loop_returns (method_name : string) (region : list region_row)
    (items : list (string * R)) (columns : list (string * list cell)) :
  exists columns',
    loop (allocate_building_type method_name region) items columns
    = Returned columns'
    /\ forall c,
         In c columns' ->
         In c columns \/ List.length (snd c) = List.length region.
Proof.
  revert columns; induction items as [|item rest IH]; intros columns.
  - exists columns. split; [reflexivity|]. intros c Hc. now left.
  - cbn [loop]. rewrite allocate_building_type_step.
    destruct (handled method_name (fst item)) eqn:Hh; [|apply IH].
    destruct (IH (dict_set (stock_column_name (fst item))
                    (stock_column method_name region item) columns))
      as [columns' [E Hlen]].
    exists columns'. split; [exact E|].
    intros c Hc. destruct (Hlen c Hc) as [Hold|Hnew]; [|now right].
    clear -Hold Hh.
    induction columns as [|[k v] columns IHc]; simpl in Hold.
    + destruct Hold as [<-|[]]. right. now apply stock_column_length.
    + destruct (String.eqb k (stock_column_name (fst item))).
      * destruct Hold as [<-|Hold].
        -- right. now apply stock_column_length.
        -- left. now right.
      * destruct Hold as [<-|Hold]; [left; now left|].
        destruct (IHc Hold) as [H|H]; [left; now right|now right].
Qed.

(** X21. [allocate_national_stock] never raises, whatever dictionary, proxy
    table and method name it is given, repeated names included: the weights
    it hands to [allocate_hybrid] pass the assertion and it always supplies
    the proxies.  The table it returns has, in every stock column and in
    the totals, one value per row of the proxy table. *)
Theorem national_allocation_never_raises (national_stocks : list (string * R))
    (proxy_data : list proxy_row) (method_name : string) :
  exists results,
    allocate_national_stock national_stocks proxy_data method_name
    = Returned results
    /\ (forall c,
          In c (res_stock results) ->
          List.length (snd c) = List.length proxy_data)
    /\ List.length (total_stock results) = List.length proxy_data
    /\ res_population results = map population proxy_data
    /\ res_state results = map state proxy_data.
Proof.
  unfold allocate_national_stock.
  destruct (national_loop_returns method_name
              (calculate_regional_characteristics proxy_data)
              national_stocks []) as [columns [-> Hlen]].
  cbn [outcome_map]. eexists. split; [reflexivity|].
  cbn [res_stock total_stock res_population res_state].
  split; [|split; [|split]].
  - intros c Hc. destruct (Hlen c Hc) as [[]|H].
    now rewrite H, region_length.
  - now rewrite length_map, length_seq.
  - apply (region_column population).
  - reflexivity.
Qed.

(** ** float64: the inflow table *)

Lemma inflow_of_merged_f64_splits (c : cement_row_f64) (s : spending_row_f64) :
  splits_production_f64 c s (inflow_of_merged_f64 c s).
Proof.
  split; [reflexivity|]. split; [reflexivity|].
  intros b. destruct b; reflexivity.
Qed.

(** C6 as it is stated does not hold: in the inflow table of the sample
    data the row of 1970 has fractions that add up to 1 and a
    concrete-to-buildings total of 226.87500000000003, while its four
    inflows add up to 226.875, in whichever order they are added; 14 of the
    75 rows miss their total in this way. *)
Lemma sample_inflows_miss_total :
  (exists row,
     nth_error sample_inflows_f64 20 = Some row
     /\ year_f64 row = 1970%Z
     /\ fractions_sum_to_one building_types row = true
     /\ concrete_to_buildings_mt_f64 row = 226.87500000000003%float
     /\ sum_left_to_right (map (fun b => inflow_col_f64 b row) building_types)
        = 226.875%float
     /\ (forall order,
           In order (all_orders building_types) ->
           inflows_sum_to_total order row = false))
  /\ List.length
       (filter (fun row =>
                  fractions_sum_to_one building_types row
                  && negb (inflows_sum_to_total building_types row))
               sample_inflows_f64)
     = 14%nat.
Proof.
  split; [|vm_compute; reflexivity].
  eexists. split; [vm_compute; reflexivity|].
  split; [reflexivity|]. split; [vm_compute; reflexivity|].
  split; [vm_compute; reflexivity|]. split; [vm_compute; reflexivity|].
  intros order Hin.
  assert (forallb (fun order =>
                     negb (inflows_sum_to_total order
                             (inflow_of_merged_f64
                                {| c_year_f64 := 1970;
                                   production_mt_f64 := (75 + 0 * 0.5)%float |}
                                {| s_year_f64 := 1970;
                                   residential_fraction_f64 := 0.60;
                                   commercial_fraction_f64 := 0.25;
                                   institutional_fraction_f64 := 0.10;
                                   industrial_fraction_f64 := 0.05 |})))
                  (all_orders building_types) = true) as H
    by (vm_compute; reflexivity).
  rewrite forallb_forall in H. specialize (H order Hin).
  apply negb_true_iff in H. exact H.
Qed.

(** C6. [calculate_concrete_inflows] has one row for every pair of a
    production row and a spending row of the same year, and no other; in
    it the concrete-to-buildings total is the float64 product
    [production_mt * CONCRETE_TO_CEMENT_RATIO * BUILDING_FRACTION] and the
    inflow of each building type is that product times the spending
    fraction of the type, each multiplication rounded. *)
Theorem concrete_inflows_are_rounded_products
    (cement_data : list cement_row_f64)
    (spending_data : list spending_row_f64) :
  (forall c s,
     In c cement_data -> In s spending_data ->
     s_year_f64 s = c_year_f64 c ->
     exists row,
       In row (calculate_concrete_inflows_f64 cement_data spending_data)
       /\ splits_production_f64 c s row)
  /\ (forall row,
        In row (calculate_concrete_inflows_f64 cement_data spending_data) ->
        exists c s,
          In c cement_data /\ In s spending_data
          /\ s_year_f64 s = c_year_f64 c
          /\ splits_production_f64 c s row).
Proof.
  split.
  - intros c s Hc Hs Hy. exists (inflow_of_merged_f64 c s).
    split; [|apply inflow_of_merged_f64_splits].
    unfold calculate_concrete_inflows_f64.
    apply in_flat_map. exists c. split; [assumption|].
    apply in_map, filter_In. split; [assumption|]. now apply Z.eqb_eq.
  - intros row Hrow. unfold calculate_concrete_inflows_f64 in Hrow.
    apply in_flat_map in Hrow. destruct Hrow as [c [Hc Hrow]].
    apply in_map_iff in Hrow. destruct Hrow as [s [<- Hs]].
    apply filter_In in Hs. destruct Hs as [Hs Hy]. apply Z.eqb_eq in Hy.
    exists c, s.
    split; [assumption|]. split; [assumption|]. split; [assumption|].
    apply inflow_of_merged_f64_splits.
Qed.

Lemma concrete_inflows_are_rounded_products_witness :
  exists row,
    In row sample_inflows_f64
    /\ year_f64 row = 1970%Z
    /\ concrete_to_buildings_mt_f64 row = 226.87500000000003%float
    /\ inflow_col_f64 commercial row = 56.718750000000007%float.
Proof.
  destruct (proj1 (concrete_inflows_are_rounded_products
                     load_usgs_cement_data_f64 load_construction_spending_f64)
              {| c_year_f64 := 1970;
                 production_mt_f64 := (75 + 0 * 0.5)%float |}
              {| s_year_f64 := 1970;
                 residential_fraction_f64 := 0.60;
                 commercial_fraction_f64 := 0.25;
                 institutional_fraction_f64 := 0.10;
                 industrial_fraction_f64 := 0.05 |})
    as [row [Hin [Hy [Ht Hb]]]].
  - vm_compute. do 20 right. left. reflexivity.
  - vm_compute. do 20 right. left. reflexivity.
  - reflexivity.
  - exists row. split; [exact Hin|]. split; [exact Hy|].
    split; [rewrite Ht; vm_compute; reflexivity|].
    rewrite (Hb commercial). vm_compute. reflexivity.
Defined.

(** ** float64: the single-proxy methods *)

(** C4 as it is stated does not hold: a national stock of 10 over the
    proxy values 1, 2 and 4 is allocated as 1.4285714285714284,
    2.8571428571428568 and 5.7142857142857135, which add up to
    9.999999999999998; and a national stock of 8 over two proxy values of
    1e308, whose total overflows, is allocated as 0 and 0. *)
Lemma single_proxy_total_is_rounded :
  let ten := SpatialAllocator_f64_init 10 ["a"; "b"; "c"] in
  let eight := SpatialAllocator_f64_init 8 ["a"; "b"] in
  allocate_by_population_f64 sum_left_to_right ten [1; 2; 4]%float
  = [1.4285714285714284; 2.8571428571428568; 5.7142857142857135]%float
  /\ sum_left_to_right
       (allocate_by_population_f64 sum_left_to_right ten [1; 2; 4]%float)
     = 9.9999999999999982%float
  /\ ~ redistributes_exactly sum_left_to_right ten [1; 2; 4]%float
         (allocate_by_population_f64 sum_left_to_right ten [1; 2; 4]%float)
  /\ allocate_by_population_f64 sum_left_to_right eight [1e308; 1e308]%float
     = [0; 0]%float
  /\ ~ redistributes_exactly sum_left_to_right eight [1e308; 1e308]%float
         (allocate_by_population_f64 sum_left_to_right eight
            [1e308; 1e308]%float).
Proof.
  intros ten eight.
  split; [vm_compute; reflexivity|]. split; [vm_compute; reflexivity|].
  split; [|split; [vm_compute; reflexivity|]].
  - intros H. destruct H as [_ H]; [vm_compute; reflexivity|].
    vm_compute in H. discriminate.
  - intros H. destruct H as [_ H]; [vm_compute; reflexivity|].
    vm_compute in H. discriminate.
Qed.

(** C4. Each of the single-proxy methods gives every region the float64
    value of the national stock times the region's share of the proxy
    total: the proxy value is divided by the total that [Series.sum]
    returns, the national stock is multiplied by the quotient, and each of
    the two operations is rounded; the result has one value per region. *)
Theorem single_proxy_allocation_is_rounded_share
    (pandas_sum : Series_f64 -> float) (self : SpatialAllocator_f64)
    (proxy : Series_f64) :
  let allocated :=
    map (fun v => (national_stock_f64 self * (v / pandas_sum proxy))%float)
        proxy in
  allocate_by_population_f64 pandas_sum self proxy = allocated
  /\ allocate_by_gdp_f64 pandas_sum self proxy = allocated
  /\ allocate_by_floor_area_f64 pandas_sum self proxy = allocated
  /\ allocate_by_nighttime_lights_f64 pandas_sum self proxy = allocated
  /\ List.length allocated = List.length proxy.
Proof.
  intros allocated.
  assert (series_scale_f64 (national_stock_f64 self)
            (series_div_f64 proxy (pandas_sum proxy)) = allocated) as E
    by apply map_map.
  unfold allocate_by_population_f64, allocate_by_gdp_f64,
    allocate_by_floor_area_f64, allocate_by_nighttime_lights_f64.
  rewrite E. repeat split. apply length_map.
Qed.

(** ** float64: the hybrid allocation *)

Lemma series_iadd_f64_nth (result other : Series_f64) (i : nat) :
  nth_error (series_iadd_f64 result other) i
  = match nth_error result i with
    | Some x =>
        Some match nth_error other i with
             | Some v => (x + v)%float
             | None => nan
             end
    | None => None
    end.
Proof.
  revert other i; induction result as [|x result IH]; intros other i.
  - now destruct i.
  - destruct other as [|v other], i as [|i]; cbn [series_iadd_f64 nth_error];
      try reflexivity.
    + rewrite IH. now destruct i.
    + apply IH.
Qed.

Section HybridFacts64.

Variable pandas_sum : Series_f64 -> float.
Variable self : SpatialAllocator_f64.
Variable proxy_data : list (string * Series_f64).

(** The loop of [allocate_hybrid], position by position. *)
Lemma hybrid_loop_f64_nth (weights : list (string * float))
    (result : Series_f64) (i : nat) :
  nth_error (fold_left (hybrid_step_f64 pandas_sum self proxy_data) weights
               result) i
  = option_map
      (fun x =>
         fold_left (weighted_term_f64 pandas_sum (national_stock_f64 self)
                      proxy_data i)
           weights x)
      (nth_error result i).
Proof.
  revert result; induction weights as [|item ws IH]; intros result.
  - cbn [fold_left]. now destruct (nth_error result i).
  - cbn [fold_left]. rewrite IH.
    assert (nth_error (hybrid_step_f64 pandas_sum self proxy_data result item) i
            = option_map
                (fun x =>
                   weighted_term_f64 pandas_sum (national_stock_f64 self)
                     proxy_data i x item)
                (nth_error result i)) as Hstep.
    { unfold hybrid_step_f64, weighted_term_f64.
      destruct (dict_get (fst item) proxy_data) as [proxy|].
      - rewrite series_iadd_f64_nth.
        destruct (nth_error result i) as [x|]; [|reflexivity].
        cbn [option_map]. unfold series_scale_f64, series_div_f64.
        rewrite map_map, nth_error_map.
        now destruct (nth_error proxy i).
      - now destruct (nth_error result i). }
    rewrite Hstep. now destruct (nth_error result i).
Qed.

Lemma hybrid_loop_f64 {A : Type} (weights : list (string * float))
    (first : list A) :
  fold_left (hybrid_step_f64 pandas_sum self proxy_data) weights
    (zeros_like_f64 first)
  = weighted_allocation_f64 pandas_sum (national_stock_f64 self) weights
      proxy_data (List.length first).
Proof.
  apply nth_error_ext. intros i. rewrite hybrid_loop_f64_nth.
  unfold zeros_like_f64, weighted_allocation_f64.
  rewrite !nth_error_map.
  destruct (Nat.lt_ge_cases i (List.length first)) as [Hi|Hi].
  - destruct (nth_error first i) eqn:E.
    + rewrite nth_error_seq. 
      destruct (Nat.ltb_spec i (List.length first)); [reflexivity|lia].
    + apply nth_error_None in E. lia.
  - rewrite (proj2 (nth_error_None first i)) by assumption.
    rewrite (proj2 (nth_error_None (seq 0 (List.length first)) i))
      by (rewrite length_seq; assumption).
    reflexivity.
Qed.

(** A weight whose proxy is not supplied adds nothing. *)
Lemma weighted_allocation_at_f64_present (weights : list (string * float))
    (i : nat) (acc : float) :
  fold_left (weighted_term_f64 pandas_sum (national_stock_f64 self)
               proxy_data i)
    (filter (present_f64 proxy_data) weights) acc
  = fold_left (weighted_term_f64 pandas_sum (national_stock_f64 self)
                 proxy_data i)
      weights acc.
Proof.
  revert acc; induction weights as [|item ws IH]; intros acc.
  - reflexivity.
  - cbn [filter]. unfold present_f64 at 1.
    destruct (dict_get (fst item) proxy_data) as [proxy|] eqn:E.
    + cbn [fold_left]. apply IH.
    + cbn [fold_left]. rewrite IH. f_equal.
      unfold weighted_term_f64. now rewrite E.
Qed.

End HybridFacts64.

(** C5 as it is stated does not hold: the call
    [allocate_hybrid(weights={'population': 1.0})], without any proxy
    series, passes the assertion and then fails on the first proxy. *)
Lemma hybrid_without_proxy_data_fails :
  weights_pass_f64 sum_left_to_right [("population", 1.0%float)] = true
  /\ allocate_hybrid_f64 sum_left_to_right sum_left_to_right
       sample_allocator_f64 [("population", 1.0%float)] []
     = Raised IndexError
  /\ ~ hybrid_fails_only_on_weights sum_left_to_right sum_left_to_right
         sample_allocator_f64 [("population", 1.0%float)] [].
Proof.
  split; [vm_compute; reflexivity|]. split; [vm_compute; reflexivity|].
  intros [_ H]. destruct H as [n H]; [vm_compute; reflexivity|].
  vm_compute in H. discriminate.
Qed.

(** The assertion tests the sum as a float: weights of 1e16, 1.0 and -1e16
    add up to 0.0 when they are added from left to right, and the call
    fails; the weights that [allocate_national_stock] passes, 0.6 with 0.4
    and 0.7 with 0.3, add up to 1.0 and pass. *)
Example weights_are_summed_as_floats :
  allocate_hybrid_f64 sum_left_to_right sum_left_to_right sample_allocator_f64
    [("population", 1e16); ("gdp", 1.0); ("floor_area", -1e16)]%float
    [("population", sample_population_f64)]
  = Raised AssertionError
  /\ weights_pass_f64 sum_left_to_right
       [("population", 0.6); ("floor_area", 0.4)]%float = true
  /\ weights_pass_f64 sum_left_to_right
       [("population", 0.7); ("gdp", 0.3)]%float = true.
Proof. repeat split; vm_compute; reflexivity. Qed.

(** C5. [allocate_hybrid] raises an [AssertionError] exactly when the
    float64 sum of the weights is not within 0.001 of 1.0; otherwise it
    raises an [IndexError] when no proxy series is supplied, and with at
    least one it returns normally a series on the index of the first one:
    its value at each position is the weighted sum of the proportional
    allocations of the weighted proxies that are supplied, accumulated
    from 0.0 in the order of the weights, each term the float64 value of
    weight times national stock times the share of the unit in the
    proxy. *)
Theorem allocate_hybrid_outcome (pandas_sum : Series_f64 -> float)
    (python_sum : list float -> float) (self : SpatialAllocator_f64)
    (weights : list (string * float))
    (proxy_data : list (string * Series_f64)) :
  (allocate_hybrid_f64 pandas_sum python_sum self weights proxy_data
   = Raised AssertionError
   <-> weights_pass_f64 python_sum weights = false)
  /\ (weights_pass_f64 python_sum weights = true ->
      proxy_data = [] ->
      allocate_hybrid_f64 pandas_sum python_sum self weights proxy_data
      = Raised IndexError)
  /\ (forall name first rest,
        weights_pass_f64 python_sum weights = true ->
        proxy_data = (name, first) :: rest ->
        allocate_hybrid_f64 pandas_sum python_sum self weights proxy_data
        = Returned (weighted_allocation_f64 pandas_sum
                      (national_stock_f64 self) weights proxy_data
                      (List.length first))).
Proof.
  unfold allocate_hybrid_f64, weights_pass_f64.
  destruct (abs (python_sum (map snd weights) - 1.0) <? 0.001)%float.
  - split; [|split].
    + split; [|discriminate].
      destruct proxy_data as [|[name first] rest]; discriminate.
    + now intros _ ->.
    + intros name first rest _ ->. f_equal. apply hybrid_loop_f64.
  - split; [|split].
    + split; reflexivity.
    + discriminate.
    + discriminate.
Qed.

Lemma allocate_hybrid_outcome_witness :
  weights_pass_f64 sum_left_to_right
    [("population", 0.6); ("floor_area", 0.4)]%float = true
  /\ allocate_hybrid_f64 sum_left_to_right sum_left_to_right
       sample_allocator_f64 [("population", 0.6); ("floor_area", 0.4)]%float
       [("population", sample_population_f64);
        ("floor_area", sample_floor_area_f64)]
     = Returned [1679.4602698650674; 1320.5397301349326]%float.
Proof.
  assert (weights_pass_f64 sum_left_to_right
            [("population", 0.6); ("floor_area", 0.4)]%float = true) as W
    by (vm_compute; reflexivity).
  split; [exact W|].
  rewrite (proj2 (proj2 (allocate_hybrid_outcome sum_left_to_right
                           sum_left_to_right sample_allocator_f64
                           [("population", 0.6); ("floor_area", 0.4)]%float
                           [("population", sample_population_f64);
                            ("floor_area", sample_floor_area_f64)]))
             "population" sample_population_f64
             [("floor_area", sample_floor_area_f64)] W eq_refl).
  vm_compute. reflexivity.
Defined.

(** C10 as it is stated does not hold.  Without any proxy series the call
    ends in an [IndexError]; with a national stock of 0, with a dropped
    weight of 0.0 and with a dropped weight as small as 1e-17 nothing is
    lost; and where stock is lost the total is the rounded sum of rounded
    shares, 4.999999999999999 and not 5 for a stock of 10, weights of 0.5
    and 0.5 and the one proxy 1, 2, 4. *)
Lemma hybrid_missing_proxy_exceptions :
  let hybrid := allocate_hybrid_f64 sum_left_to_right sum_left_to_right in
  let loses := hybrid_loses_stock sum_left_to_right sum_left_to_right in
  let half := [("population", 0.5); ("gdp", 0.5)]%float in
  hybrid sample_allocator_f64 half [] = Raised IndexError
  /\ ~ loses sample_allocator_f64 half []
  /\ ~ loses (SpatialAllocator_f64_init 0 ["California"; "Texas"]) half
         [("population", sample_population_f64)]
  /\ hybrid sample_allocator_f64 [("population", 1.0); ("gdp", 0.0)]%float
       [("population", [1; 1]%float)]
     = Returned [1500; 1500]%float
  /\ ~ loses sample_allocator_f64 [("population", 1.0); ("gdp", 0.0)]%float
         [("population", [1; 1]%float)]
  /\ hybrid sample_allocator_f64 [("population", 1.0); ("gdp", 1e-17)]%float
       [("population", [1; 1]%float)]
     = Returned [1500; 1500]%float
  /\ ~ loses sample_allocator_f64 [("population", 1.0); ("gdp", 1e-17)]%float
         [("population", [1; 1]%float)]
  /\ sum_left_to_right
       match hybrid (SpatialAllocator_f64_init 10 ["a"; "b"; "c"]) half
               [("population", [1; 2; 4]%float)] with
       | Returned allocated => allocated
       | Raised _ => []
       end
     = 4.9999999999999991%float
  /\ ~ loses (SpatialAllocator_f64_init 10 ["a"; "b"; "c"]) half
         [("population", [1; 2; 4]%float)].
Proof.
  intros hybrid loses half.
  assert (forall self weights proxy_data,
            (sum_left_to_right (map snd weights) =? 1.0)%float = true ->
            (exists item,
               In item weights /\ present_f64 proxy_data item = false) ->
            match hybrid self weights proxy_data with
            | Returned allocated =>
                (sum_left_to_right allocated
                 =? national_stock_f64 self
                    * sum_left_to_right
                        (map snd (filter (present_f64 proxy_data) weights)))%float
                && (sum_left_to_right allocated
                    <? national_stock_f64 self)%float
            | Raised _ => false
            end = false ->
            ~ loses self weights proxy_data) as refute.
  { intros self weights proxy_data Hone Hmiss Hfalse H.
    destruct (H Hone Hmiss) as [allocated [E [Hsum Hlt]]].
    unfold hybrid in Hfalse. rewrite E, Hsum, Hlt in Hfalse. discriminate. }
  assert (forall (proxy_data : list (string * Series_f64)) (w1 w2 : float),
            dict_get "gdp" proxy_data = None ->
            exists item,
              In item [("population", w1); ("gdp", w2)]
              /\ present_f64 proxy_data item = false) as missing.
  { intros proxy_data w1 w2 E. exists ("gdp", w2).
    split; [right; now left|]. unfold present_f64. cbn [fst]. now rewrite E. }
  split; [vm_compute; reflexivity|].
  split; [apply refute; [vm_compute; reflexivity|now apply missing|
                         vm_compute; reflexivity]|].
  split; [apply refute; [vm_compute; reflexivity|now apply missing|
                         vm_compute; reflexivity]|].
  split; [vm_compute; reflexivity|].
  split; [apply refute; [vm_compute; reflexivity|now apply missing|
                         vm_compute; reflexivity]|].
  split; [vm_compute; reflexivity|].
  split; [apply refute; [vm_compute; reflexivity|now apply missing|
                         vm_compute; reflexivity]|].
  split; [vm_compute; reflexivity|].
  apply refute; [vm_compute; reflexivity|now apply missing|
                 vm_compute; reflexivity].
Qed.

(** C10. [allocate_hybrid] silently drops the weight assigned to proxy
    names that are absent from the supplied proxy data: when the weights
    pass the assertion and at least one proxy series is supplied, no error
    is raised and the returned allocation is, value for value, the
    weighted sum over only the weights whose proxy is present, whatever
    weight the absent names carry. *)
Theorem hybrid_drops_missing_weight (pandas_sum : Series_f64 -> float)
    (python_sum : list float -> float) (self : SpatialAllocator_f64)
    (weights : list (string * float)) (name : string) (first : Series_f64)
    (rest : list (string * Series_f64)) :
  let proxy_data := (name, first) :: rest in
  weights_pass_f64 python_sum weights = true ->
  allocate_hybrid_f64 pandas_sum python_sum self weights proxy_data
  = Returned (weighted_allocation_f64 pandas_sum (national_stock_f64 self)
                (filter (present_f64 proxy_data) weights) proxy_data
                (List.length first)).
Proof.
  intros proxy_data W. unfold weights_pass_f64 in W.
  unfold allocate_hybrid_f64, proxy_data. rewrite W. f_equal.
  rewrite hybrid_loop_f64. unfold weighted_allocation_f64.
  apply map_ext. intros i. unfold weighted_allocation_at_f64.
  symmetry. apply weighted_allocation_at_f64_present.
Qed.

Lemma hybrid_drops_missing_weight_witness :
  weights_pass_f64 sum_left_to_right
    [("population", 0.6); ("floor_area", 0.4)]%float = true
  /\ exists allocated,
       allocate_hybrid_f64 sum_left_to_right sum_left_to_right
         sample_allocator_f64 [("population", 0.6); ("floor_area", 0.4)]%float
         [("population", sample_population_f64)]
       = Returned allocated
       /\ allocated
          = weighted_allocation_f64 sum_left_to_right 3000
              [("population", 0.6%float)]
              [("population", sample_population_f64)] 2
       /\ sum_left_to_right allocated = 1800%float.
Proof.
  assert (weights_pass_f64 sum_left_to_right
            [("population", 0.6); ("floor_area", 0.4)]%float = true) as W
    by (vm_compute; reflexivity).
  split; [exact W|].
  eexists.
  split; [exact (hybrid_drops_missing_weight sum_left_to_right
                   sum_left_to_right sample_allocator_f64
                   [("population", 0.6); ("floor_area", 0.4)]%float
                   "population" sample_population_f64 [] W)|].
  split; [reflexivity|]. vm_compute. reflexivity.
Defined.
